(** * movico: route registration, the Vite dev-server singleton, the
    property store and the router's start-up and shutdown

    A shallow embedding of [core/VDS.ts], [core/Service.ts],
    [core/Controller.ts], [core/CoreController.ts], [core/AppRouter.ts] and
    [core/Application.ts].

    JavaScript runs one task at a time: a function body runs without
    interruption up to its next [await].  Every function below is therefore
    one uninterrupted piece of code; where the source awaits in the middle
    of a body, the body is cut at the [await] and the awaited result is an
    argument of the second piece.  Console output is kept only where a line
    tells registration events apart. *)

From Stdlib Require Import Ascii.
From stdpp Require Import gmap strings list.

(** ** Control flow of a JavaScript body *)

(** What is thrown: the message of the [Error]. *)
Definition Error : Type := string.

(** How a body ends: it returns, it throws (an [async] body: its promise is
    rejected), or it called [process.exit], after which nothing runs. *)
Inductive Outcome (A : Type) : Type :=
| Returned (a : A)
| Thrown (error : Error)
| Exited (code : nat).
Arguments Returned {A} a.
Arguments Thrown {A} error.
Arguments Exited {A} code.

(** A body over the mutable state [S]. *)
Definition JS (S A : Type) : Type := S -> S * Outcome A.

Definition ret {S A : Type} (a : A) : JS S A := fun s => (s, Returned a).

Definition throw {S A : Type} (error : Error) : JS S A :=
  fun s => (s, Thrown error).

Definition processExit {S A : Type} (code : nat) : JS S A :=
  fun s => (s, Exited code).

Definition bind {S A B : Type} (m : JS S A) (k : A -> JS S B) : JS S B :=
  fun s =>
    match m s with
    | (s1, Returned a) => k a s1
    | (s1, Thrown error) => (s1, Thrown error)
    | (s1, Exited code) => (s1, Exited code)
    end.

Definition modify {S : Type} (f : S -> S) : JS S unit :=
  fun s => (f s, Returned tt).

Definition gets {S A : Type} (f : S -> A) : JS S A :=
  fun s => (s, Returned (f s)).

(** [try { body } catch (error) { handler }] *)
Definition tryCatch {S A : Type} (body : JS S A) (handler : Error -> JS S A)
  : JS S A :=
  fun s =>
    match body s with
    | (s1, Thrown error) => handler error s1
    | done => done
    end.

(** [try { body } catch (error) { handler } finally { finalizer }]: the
    finalizer runs however the first two ended, unless the process exited;
    when the finalizer itself ends abruptly, that is how the statement ends. *)
Definition tryCatchFinally {S : Type} (body : JS S unit)
    (handler : Error -> JS S unit) (finalizer : JS S unit) : JS S unit :=
  fun s =>
    match tryCatch body handler s with
    | (s1, Exited code) => (s1, Exited code)
    | (s1, ended) =>
        match finalizer s1 with
        | (s2, Returned _) => (s2, ended)
        | (s2, Thrown error) => (s2, Thrown error)
        | (s2, Exited code) => (s2, Exited code)
        end
    end.

Declare Scope js_scope.
Delimit Scope js_scope with js.
Notation "x <- m ;; k" := (bind m (fun x => k))
  (at level 100, m at next level, k at level 200, right associativity)
  : js_scope.
Notation "m ;; k" := (bind m (fun _ => k))
  (at level 100, k at level 200, right associativity) : js_scope.

(** ** [core/VDS.ts]: the Vite dev-server singleton *)

Module VDS.

(** An engine instance, as [createServer] hands it out. *)
Definition ViteDevServer : Type := nat.

(** The promise chain [createServer(cfg).then(..).catch(..)] of one creation
    attempt.  Promises live in a store; a promise is named by its index, so
    two references to the same promise are the same index. *)
Inductive Promise : Type :=
| Pending
| Fulfilled (server : ViteDevServer)
| Rejected (error : Error).

Definition PromiseId : Type := nat.

(** The two private fields of the class, the promise store (one promise per
    [createServer] call), and the [close()] calls made on instances. *)
Record World : Type := mkWorld {
  promiseVDS : option PromiseId;
  instanceVDS : option ViteDevServer;
  promises : list Promise;
  closeCalls : list ViteDevServer
}.

(** [new VDS(template, config)] *)
Definition init : World := mkWorld None None [] [].

Definition createServerCalls (w : World) : nat := length (promises w).

(** What the [async] method [getVDS] resolves its caller with: the live
    instance, or the stored promise. *)
Inductive Ticket : Type :=
| Instance (server : ViteDevServer)
| Awaited (p : PromiseId).

(** [private async getVDS()].  The body has no [await]. *)
Definition getVDS (w : World) : World * Ticket :=
  match instanceVDS w with
  | Some server => (w, Instance server)
  | None =>
      match promiseVDS w with
      | Some p => (w, Awaited p)
      | None =>
          let p := length (promises w) in
          (mkWorld (Some p) None (promises w ++ [Pending]) (closeCalls w),
           Awaited p)
      end
  end.

(** The public methods that need the engine; each starts with
    [await this.getVDS()]. *)
Inductive Request : Type :=
| transformTemplate (targetURL : string)
| getMiddleware
| errorVDS (error : Error).

Definition call (r : Request) : World -> World * Ticket :=
  match r with
  | transformTemplate _ => getVDS
  | getMiddleware => getVDS
  | errorVDS _ => getVDS
  end.

(** [.then((server) => { this.instanceVDS = server; return server })] *)
Definition thenCallback (server : ViteDevServer) (w : World) : World :=
  mkWorld (promiseVDS w) (Some server) (promises w) (closeCalls w).

(** [.catch((error) => { this.instanceVDS = null; ...; throw error })] *)
Definition catchCallback (error : Error) (w : World) : World :=
  mkWorld (promiseVDS w) None (promises w) (closeCalls w).

Definition settlePromise (p : PromiseId) (v : Promise) (w : World) : World :=
  mkWorld (promiseVDS w) (instanceVDS w) (<[p := v]> (promises w))
    (closeCalls w).

(** The engine answers creation attempt [p].  A promise settles once. *)
Definition createServerResolves (p : PromiseId) (server : ViteDevServer)
    (w : World) : World :=
  match promises w !! p with
  | Some Pending => settlePromise p (Fulfilled server) (thenCallback server w)
  | _ => w
  end.

Definition createServerRejects (p : PromiseId) (error : Error) (w : World)
  : World :=
  match promises w !! p with
  | Some Pending => settlePromise p (Rejected error) (catchCallback error w)
  | _ => w
  end.

(** What the caller holding ticket [t] gets from its [await]: nothing yet,
    the instance, or the failure. *)
Definition awaitTicket (w : World) (t : Ticket)
  : option (Outcome ViteDevServer) :=
  match t with
  | Instance server => Some (Returned server)
  | Awaited p =>
      match promises w !! p with
      | Some (Fulfilled server) => Some (Returned server)
      | Some (Rejected error) => Some (Thrown error)
      | _ => None
      end
  end.

(** Request traffic: calls of the public methods, interleaved with the
    engine's answers. *)
Inductive Event : Type :=
| Call (r : Request)
| Resolves (p : PromiseId) (server : ViteDevServer)
| Rejects (p : PromiseId) (error : Error).

Definition step (e : Event) (w : World) : World * list Ticket :=
  match e with
  | Call r => let '(w1, t) := call r w in (w1, [t])
  | Resolves p server => (createServerResolves p server w, [])
  | Rejects p error => (createServerRejects p error w, [])
  end.

(** Runs the events in order; the tickets are those of the calls, in order. *)
Fixpoint run (events : list Event) (w : World) : World * list Ticket :=
  match events with
  | [] => (w, [])
  | e :: rest =>
      let '(w1, ts1) := step e w in
      let '(w2, ts2) := run rest w1 in
      (w2, ts1 ++ ts2)
  end.

Definition isCall (e : Event) : bool :=
  match e with Call _ => true | _ => false end.

(** [public async shutdownVDS()] up to its [await]: either it returns at
    once, or [close()] has been called on the instance and the body waits. *)
Inductive Suspended : Type :=
| Done
| AwaitingClose.

Definition shutdownVDS_enter (w : World) : World * Suspended :=
  match instanceVDS w with
  | None => (w, Done)
  | Some server =>
      (mkWorld (promiseVDS w) (instanceVDS w) (promises w)
         (closeCalls w ++ [server]),
       AwaitingClose)
  end.

Definition clearReferences (w : World) : World :=
  mkWorld None None (promises w) (closeCalls w).

(** The rest of the body, once [close()] has answered: [None] when it
    resolved, [Some error] when it rejected. *)
Definition shutdownVDS_resume (closeResult : option Error) : JS World unit :=
  tryCatchFinally
    (match closeResult with
     | None => ret tt
     | Some error => throw error
     end)
    (fun _ => ret tt)
    (modify clearReferences).

(** A whole call of [shutdownVDS], nothing else running in between. *)
Definition shutdownVDS (closeResult : option Error) : JS World unit :=
  fun w =>
    match shutdownVDS_enter w with
    | (w1, Done) => (w1, Returned tt)
    | (w1, AwaitingClose) => shutdownVDS_resume closeResult w1
    end.

End VDS.

(** ** [core/Service.ts]: the property store *)

Module Service.

(** Property values. *)
Inductive Value : Type :=
| VUndefined
| VNull
| VBool (b : bool)
| VNum (n : Z)
| VStr (s : string).

(** A call of one of the hooks a subclass may define. *)
Inductive HookCall : Type :=
| OnSet (key : string) (value : Value)
| OnRemove (key : string)
| OnReset.

(** Which of the optional hooks the concrete subclass defines. *)
Record Hooks : Type := mkHooks {
  onSet : bool;
  onRemove : bool;
  onReset : bool
}.

(** The two private fields, and the hook calls made so far.  A field is
    an object literal; its map holds the own properties of the object, and
    the reads and writes below are reads and writes of own properties,
    which is what [obj[key]], [key in obj] and [obj[key] = value] are at a
    key that [Object.prototype] does not name. *)
Record State : Type := mkState {
  validators : gmap string (Value → bool);
  properties : gmap string Value;
  hookCalls : list HookCall
}.

(** [constructor(initialProps = {})] *)
Definition new (initialProps : gmap string Value) : State :=
  mkState ∅ initialProps [].

(** [this.hook?.(..)]: the call is made when the hook is defined. *)
Definition callHook (defined : bool) (c : HookCall) : JS State unit :=
  modify (λ s,
    mkState (validators s) (properties s)
      (if defined then hookCalls s ++ [c] else hookCalls s)).

Definition validationFailed (key : string) : Error :=
  "Validation failed for property '" +:+ key +:+ "'".

(** [setValue(key, newValue)] *)
Definition setValue (h : Hooks) (key : string) (newValue : Value)
  : JS State unit :=
  (validator <- gets (λ s, validators s !! key);;
   match validator with
   | Some validate =>
       if negb (validate newValue) then throw (validationFailed key)
       else ret tt
   | None => ret tt
   end;;
   modify (λ s,
     mkState (validators s) (<[key := newValue]> (properties s))
       (hookCalls s));;
   callHook (onSet h) (OnSet key newValue))%js.

(** [getValue(key)]: [this.properties[key] ?? null] *)
Definition getValue (key : string) (s : State) : Value :=
  match properties s !! key with
  | None => VNull
  | Some VUndefined => VNull
  | Some VNull => VNull
  | Some value => value
  end.

(** [registerValidator(key, validator)] *)
Definition registerValidator (key : string) (validator : Value → bool)
  : JS State unit :=
  modify (λ s,
    mkState (<[key := validator]> (validators s)) (properties s)
      (hookCalls s)).

(** [setNewProp(key, value)] *)
Definition setNewProp (h : Hooks) (key : string) (value : Value)
  : JS State unit :=
  (modify (λ s,
     mkState (validators s) (<[key := value]> (properties s)) (hookCalls s));;
   callHook (onSet h) (OnSet key value))%js.

(** [removeProp(key)] *)
Definition removeProp (h : Hooks) (key : string) : JS State unit :=
  (modify (λ s,
     mkState (validators s) (delete key (properties s)) (hookCalls s));;
   callHook (onRemove h) (OnRemove key))%js.

(** [hasProp(key)] *)
Definition hasProp (key : string) (s : State) : bool :=
  bool_decide (is_Some (properties s !! key)).

(** [getAllProps()] *)
Definition getAllProps (s : State) : gmap string Value := properties s.

(** [resetProps(defaultProps = {})] *)
Definition resetProps (h : Hooks) (defaultProps : gmap string Value)
  : JS State unit :=
  (modify (λ s, mkState (validators s) defaultProps (hookCalls s));;
   callHook (onReset h) OnReset)%js.

(** A use of the store by its owner. *)
Inductive Op : Type :=
| SetValue (key : string) (newValue : Value)
| SetNewProp (key : string) (value : Value)
| RemoveProp (key : string)
| ResetProps (defaultProps : gmap string Value)
| RegisterValidator (key : string) (validator : Value → bool).

Definition exec (h : Hooks) (op : Op) : JS State unit :=
  match op with
  | SetValue key newValue => setValue h key newValue
  | SetNewProp key value => setNewProp h key value
  | RemoveProp key => removeProp h key
  | ResetProps defaultProps => resetProps h defaultProps
  | RegisterValidator key validator => registerValidator key validator
  end.

(** Runs the operations in order; one that throws is caught by the owner,
    who goes on with the next. *)
Fixpoint run (h : Hooks) (ops : list Op) (s : State) : State :=
  match ops with
  | [] => s
  | op :: rest => run h rest (exec h op s).1
  end.

(** Where a stored pair comes from: the set operation that wrote it, the
    value written, and the validator registered for the key at that time. *)
Inductive Writer : Type :=
| BySetValue
| BySetNewProp.

Record Write : Type := mkWrite {
  writer : Writer;
  written : Value;
  validatorThen : option (Value → bool)
}.

Definition validated (w : Write) : Prop :=
  match validatorThen w with
  | Some validate => validate (written w) = true
  | None => True
  end.

(** Bookkeeping beside the store: for each key, the set operation behind
    the pair now stored, if a set operation wrote it.  [s] is the store
    before [op], [ended] how [op] ended. *)
Definition track (op : Op) (s : State) (ended : Outcome unit)
    (origin : gmap string Write) : gmap string Write :=
  match op, ended with
  | SetValue key newValue, Returned _ =>
      <[key := mkWrite BySetValue newValue (validators s !! key)]> origin
  | SetValue _ _, _ => origin
  | SetNewProp key value, _ =>
      <[key := mkWrite BySetNewProp value (validators s !! key)]> origin
  | RemoveProp key, _ => delete key origin
  | ResetProps _, _ => ∅
  | RegisterValidator _ _, _ => origin
  end.

(** [run], with the bookkeeping beside it. *)
Fixpoint runOps (h : Hooks) (ops : list Op) (s : State)
    (origin : gmap string Write) : State * gmap string Write :=
  match ops with
  | [] => (s, origin)
  | op :: rest =>
      let '(s1, ended) := exec h op s in
      runOps h rest s1 (track op s ended origin)
  end.

End Service.

(** ** [core/types.ts] and [core/Controller.ts]: routes and their
    registration *)

Module Controller.

(** [type Environment = 'development' | 'production'] *)
Inductive Environment : Type :=
| development
| production.

Definition environmentName (e : Environment) : string :=
  match e with
  | development => "development"
  | production => "production"
  end.

(** What the code reads from its surroundings: [process.env.NODE_ENV]
    ([None] when unset), and which property names express's [Router] has
    (the [method in Router] test). *)
Record Runtime : Type := mkRuntime {
  NODE_ENV : option string;
  inRouter : string → bool
}.

Record Request : Type := mkRequest {
  url : string;
  originalUrl : string
}.

(** What handling a request does that others can see: calls of [next],
    with or without an error, responses, files sent. *)
Inductive ReqEvent : Type :=
| Next (error : option Error)
| Respond (status : nat) (body : string)
| SendFile (file : string).

(** A middleware or endpoint [(req, res, next) => ..], synchronous or
    [async]: a body over the events of the request so far. *)
Definition Handler : Type := Request → JS (list ReqEvent) unit.

Definition emit (e : ReqEvent) : JS (list ReqEvent) unit :=
  modify (λ events, events ++ [e]).

Definition next (error : option Error) : JS (list ReqEvent) unit :=
  emit (Next error).

(** The result of a call the model does not look into. *)
Definition liftOutcome {S A : Type} (o : Outcome A) : JS S A := λ s, (s, o).

(** An entry of [handlers]: a handler, or a promise of one, given by what
    the promise has settled to when [register] awaits it. *)
Inductive HandlerEntry : Type :=
| Ready (h : Handler)
| Fulfilled (h : Handler)
| Rejected (error : Error).

(** [interface Route]; absent optional fields are [None].  [shouldRegister]
    is given by how its call ends. *)
Record Route : Type := mkRoute {
  method : string;
  path : string;
  errorFn : option (Error → Handler);
  validationFn : option (Request → JS (list ReqEvent) unit);
  shouldRegister : option (Outcome bool);
  endpointFn : Handler;
  handlers : option (list HandlerEntry);
  envScope : option Environment
}.

(** What the router has bound: [router[method](path, ...chain)] and
    [router.use(handler)]. *)
Inductive Layer : Type :=
| RouteLayer (method path : string) (chain : list Handler)
| UseLayer (handler : Handler).

Record RouterState : Type := mkRouterState {
  stack : list Layer;
  console : list string
}.

Definition log (line : string) : JS RouterState unit :=
  modify (λ s, mkRouterState (stack s) (console s ++ [line])).

Definition addLayer (l : Layer) : JS RouterState unit :=
  modify (λ s, mkRouterState (stack s ++ [l]) (console s)).

(** [String.prototype.toUpperCase], on ASCII letters. *)
Definition upper (c : ascii) : ascii :=
  let n := nat_of_ascii c in
  if (97 <=? n) && (n <=? 122) then ascii_of_nat (n - 32) else c.

Fixpoint toUpperCase (s : string) : string :=
  match s with
  | EmptyString => EmptyString
  | String c rest => String (upper c) (toUpperCase rest)
  end.

(** An abstract controller: its [routes] and the optional [onRegister]
    hook, given by how its call ends. *)
Record t : Type := mkController {
  routes : list Route;
  onRegister : option (Outcome unit)
}.

(** [private isRequestMethod(method)] *)
Definition isRequestMethod (rt : Runtime) (method : string) : bool :=
  bool_decide (method ∈ ["get"; "post"; "put"; "patch"; "delete"; "options"])
  && inRouter rt method.

(** [await Promise.all(handlers)]: the handlers in order, or the rejection
    of the first rejected entry. *)
Fixpoint promiseAll {S : Type} (entries : list HandlerEntry)
  : JS S (list Handler) :=
  match entries with
  | [] => ret []
  | Ready h :: rest => (hs <- promiseAll rest;; ret (h :: hs))%js
  | Fulfilled h :: rest => (hs <- promiseAll rest;; ret (h :: hs))%js
  | Rejected error :: _ => throw error
  end.

(** The middleware [register] puts first when the route has a
    [validationFn]. *)
Definition validationMiddleware
    (validationFn : Request → JS (list ReqEvent) unit) : Handler :=
  λ req,
    tryCatch (validationFn req;; next None)%js
             (λ error, next (Some error)).

(** The last handler [register] binds: the endpoint inside
    [try { await endpointFn(..) } catch (error) { if (errorFn) await
    errorFn(..); next(error) }]. *)
Definition wrapEndpoint (route : Route) : Handler :=
  λ req,
    tryCatch (endpointFn route req)
             (λ error,
                match errorFn route with
                | Some hook => hook error req
                | None => ret tt
                end;;
                next (Some error))%js.

Definition envScopeName (scope : option Environment) : string :=
  match scope with
  | Some e => environmentName e
  | None => "all"
  end.

(** [envScope && envScope !== process.env.NODE_ENV] *)
Definition outOfScope (rt : Runtime) (scope : option Environment) : bool :=
  match scope with
  | Some e => negb (bool_decide (NODE_ENV rt = Some (environmentName e)))
  | None => false
  end.

(** One turn of the loop of [register]; [ret tt] where the source says
    [continue]. *)
Definition registerRoute (rt : Runtime) (route : Route)
  : JS RouterState unit :=
  (proceed <- match shouldRegister route with
              | Some called => liftOutcome called
              | None => ret true
              end;;
   if negb proceed then
     log ("[Controller]: Skipping route: " +:+ toUpperCase (method route)
          +:+ " " +:+ path route)
   else if outOfScope rt (envScope route) then
     ret tt
   else if negb (isRequestMethod rt (method route)) then
     throw ("[Controller]: Method: " +:+ method route
            +:+ " is not recognized as an HTTP method")
   else
     awaitedHandlers <- promiseAll (default [] (handlers route));;
     let chain :=
       match validationFn route with
       | Some validate => validationMiddleware validate :: awaitedHandlers
       | None => awaitedHandlers
       end in
     log ("[Controller]: Registering route: " +:+ toUpperCase (method route)
          +:+ " " +:+ path route +:+ " (Env: "
          +:+ envScopeName (envScope route) +:+ ")");;
     addLayer (RouteLayer (method route) (path route)
                 (chain ++ [wrapEndpoint route])))%js.

Fixpoint registerRoutes (rt : Runtime) (rs : list Route)
  : JS RouterState unit :=
  match rs with
  | [] => ret tt
  | route :: rest => (registerRoute rt route;; registerRoutes rt rest)%js
  end.

(** [public async register()] *)
Definition register (rt : Runtime) (c : t) : JS RouterState unit :=
  (match onRegister c with
   | Some called => liftOutcome called
   | None => ret tt
   end;;
   registerRoutes rt (routes c))%js.

(** The layers a call of [register] adds to the router. *)
Definition registeredBy (rt : Runtime) (c : t) (s : RouterState)
  : list Layer :=
  drop (length (stack s)) (stack (register rt c s).1).

End Controller.

(** ** [core/CoreController.ts]: the serving controller *)

Module CoreController.
Import Controller.

(** What the two routes use from outside: the [serve-static] middleware,
    how [res.sendFile] ends for a request, what the promise
    [this.VDS.getMiddleware()] made in the constructor has settled to, and
    how [this.VDS.transformTemplate(targetURL)] ends. *)
Record Deps : Type := mkDeps {
  serveStatic : Handler;
  sendFile : Request → option Error;
  vdsMiddleware : HandlerEntry;
  transformTemplate : string → Outcome string
}.

Definition productionEntryFile : string := "dist/index.html".

(** The first entry of [this.routesInternal]. *)
Definition productionRoute (d : Deps) : Route :=
  {| handlers := Some [Ready (serveStatic d)];
     envScope := Some production;
     method := "get";
     path := "*";
     errorFn := Some (λ _ _, ret tt);
     validationFn := None;
     shouldRegister := None;
     endpointFn := λ req,
       (emit (SendFile productionEntryFile);;
        match sendFile d req with
        | Some error => next (Some error)
        | None => ret tt
        end)%js |}.

(** The middleware that logs the url and calls [next()]. *)
Definition logUrl : Handler := λ _, next None.

(** The second entry of [this.routesInternal]. *)
Definition developmentRoute (d : Deps) : Route :=
  {| handlers := Some [Ready logUrl; vdsMiddleware d];
     envScope := Some development;
     method := "get";
     path := "*";
     errorFn := None;
     validationFn := None;
     shouldRegister := None;
     endpointFn := λ req,
       tryCatch
         (template <- liftOutcome (transformTemplate d (originalUrl req));;
          emit (Respond 200 template))%js
         (λ error, next (Some error)) |}.

(** [this.routesInternal] *)
Definition routesInternal (d : Deps) : list Route :=
  [productionRoute d; developmentRoute d].

(** A [CoreController] as a controller: [get routes()], no [onRegister]. *)
Definition controller (d : Deps) : Controller.t :=
  mkController (routesInternal d) None.

End CoreController.

(** ** [core/Application.ts] *)

Module Application.

(** [private getEnv()]: [process.env.NODE_ENV ?? 'development'] *)
Definition getEnv (rt : Controller.Runtime) : string :=
  default "development" (Controller.NODE_ENV rt).

End Application.

(** ** [core/AppRouter.ts]: start-up phases and the shutdown handler *)

Module AppRouter.
Import Controller.

(** A view of the view map, given by how rendering it to markup for a
    request ends. *)
Definition Component : Type := Request → Outcome string.

(** The fields of the class: the core controller (through what it uses),
    the user-supplied controllers, the view map in the order of
    [Object.entries]. *)
Record t : Type := mkAppRouter {
  core : CoreController.Deps;
  controllers : list Controller.t;
  viewMap : list (string * Component)
}.

(** [console.error(message, error)] *)
Definition logError (message : string) (error : Error)
  : JS RouterState unit :=
  log (message +:+ " " +:+ error).

(** [private async registerServing()] *)
Definition registerServing (rt : Runtime) (app : t) : JS RouterState unit :=
  tryCatch (register rt (CoreController.controller (core app)))
           (logError "[Router]: Failed to register CoreController:").

(** The loop of [registerControllers]. *)
Fixpoint registerEach (rt : Runtime) (cs : list Controller.t)
  : JS RouterState unit :=
  match cs with
  | [] => ret tt
  | controller :: rest =>
      (register rt controller;;
       log "[Router]: Registered API controller";;
       registerEach rt rest)%js
  end.

(** [private async registerControllers()] *)
Definition registerControllers (rt : Runtime) (app : t)
  : JS RouterState unit :=
  tryCatch (registerEach rt (controllers app))
           (logError "[Router]: Failed to register controllers:").

(** The double quote of the markup below. *)
Definition dq : string := String (ascii_of_nat 34) EmptyString.

Definition pageOf (html : string) : string :=
  "<!DOCTYPE html><html lang=" +:+ dq +:+ "en" +:+ dq
  +:+ "><head><meta charset=" +:+ dq +:+ "UTF-8" +:+ dq
  +:+ "><title>Movico App</title></head><body><div id=" +:+ dq +:+ "root"
  +:+ dq +:+ ">" +:+ html +:+ "</div><script type=" +:+ dq +:+ "module"
  +:+ dq +:+ " src=" +:+ dq +:+ "/main.js" +:+ dq
  +:+ "></script></body></html>".

(** The handler [registerViews] binds for one view. *)
Definition viewHandler (component : Component) : Handler :=
  λ req,
    tryCatch
      (html <- liftOutcome (component req);;
       emit (Respond 200 (pageOf html)))%js
      (λ error, next (Some error)).

Fixpoint registerEachView (views : list (string * Component))
  : JS RouterState unit :=
  match views with
  | [] => ret tt
  | (path, component) :: rest =>
      (log ("[Router]: Registering view for path: " +:+ path);;
       addLayer (RouteLayer "get" path [viewHandler component]);;
       registerEachView rest)%js
  end.

(** [private registerViews()] *)
Definition registerViews (rt : Runtime) (app : t) : JS RouterState unit :=
  if bool_decide (NODE_ENV rt = Some "development") then
    log "[Router]: Skipping view rendering in development mode (Vite handles it)."
  else registerEachView (viewMap app).

Definition notFoundPage : string :=
  "<!DOCTYPE html><html lang=" +:+ dq +:+ "en" +:+ dq
  +:+ "><head><title>404 - Not Found</title></head><body><h1>404 - Page Not Found</h1></body></html>".

Definition notFound : Handler := λ _, emit (Respond 404 notFoundPage).

(** [private registerFallback()] *)
Definition registerFallback : JS RouterState unit :=
  addLayer (UseLayer notFound).

(** [public async initialize()].  The promises in the [handlers] of the
    controllers enter as what [register] finds when it awaits them; what
    Node does with a promise rejected before that is not part of this
    body. *)
Definition initialize (rt : Runtime) (app : t) : JS RouterState unit :=
  (log "[AppRouter]: Initializing controllers and views...";;
   registerControllers rt app;;
   log "[AppRouter]: Controllers registered.";;
   registerServing rt app;;
   log "[AppRouter]: CoreController registered.";;
   registerViews rt app;;
   log "[AppRouter]: Views registered.";;
   registerFallback;;
   log "[AppRouter]: Fallback registered.")%js.

(** What the process does around shutdown, in order: [server.close] is
    called; its callback runs, with the error if closing failed;
    [shutdownVDS] is called; [process.exit] is called. *)
Inductive ProcEvent : Type :=
| ListenerCloseCalled
| ListenerCloseCompleted (error : option Error)
| ShutdownVDSCalled
| ProcessExit (code : nat).

(** The process at shutdown: the router's [shuttingDown] flag, the dev
    server of the core controller, and what happened so far. *)
Record Process : Type := mkProcess {
  shuttingDown : bool;
  vds : VDS.World;
  happened : list ProcEvent
}.

Definition record (e : ProcEvent) : JS Process unit :=
  modify (λ p, mkProcess (shuttingDown p) (vds p) (happened p ++ [e])).

(** [process.exit(code)] *)
Definition exit (code : nat) : JS Process unit :=
  (record (ProcessExit code);; processExit code)%js.

(** A body of the dev server, run on the dev server of the process. *)
Definition onVDS {A : Type} (m : JS VDS.World A) : JS Process A :=
  λ p,
    let '(w, ended) := m (vds p) in
    (mkProcess (shuttingDown p) w (happened p), ended).

(** [this.coreController.getVDS().shutdownVDS()], awaited. *)
Definition shutdownVDS (closeResult : option Error) : JS Process unit :=
  (record ShutdownVDSCalled;; onVDS (VDS.shutdownVDS closeResult))%js.

(** The handler that [handleShutdown(server)] returns, up to the call of
    [server.close]: [false] when it only noted a shutdown in progress. *)
Definition shutdownHandler_enter : JS Process bool :=
  (already <- gets shuttingDown;;
   if already then ret false
   else
     modify (λ p, mkProcess true (vds p) (happened p));;
     record ListenerCloseCalled;;
     ret true)%js.

(** The callback given to [server.close], run when the listener has
    closed ([error = None]) or failed to; [closeResult] is how the dev
    server's [close()] ends if it comes to that. *)
Definition serverCloseCallback (rt : Runtime) (error : option Error)
    (closeResult : option Error) : JS Process unit :=
  (record (ListenerCloseCompleted error);;
   match error with
   | Some _ => exit 1
   | None => ret tt
   end;;
   tryCatch
     ((if bool_decide (NODE_ENV rt = Some "development")
       then shutdownVDS closeResult
       else ret tt);;
      exit 0)
     (λ _, exit 1))%js.

(** A whole run of the handler. *)
Definition shutdownHandler (rt : Runtime) (error : option Error)
    (closeResult : option Error) : JS Process unit :=
  (closing <- shutdownHandler_enter;;
   if closing then serverCloseCallback rt error closeResult else ret tt)%js.

(** The listeners of the process, each up to its first [await], in the
    order they were added: the [VDS] constructor adds one for ["exit"] and
    one for ["SIGINT"], both calling [shutdownVDS]; [Application.start]
    later adds the router's handler for ["SIGINT"] and ["SIGTERM"]. *)
Inductive ProcessEvent : Type :=
| exitEvent
| SIGINT
| SIGTERM.

Definition vdsListener : JS Process unit :=
  (record ShutdownVDSCalled;;
   _ <- onVDS (λ w, let '(w1, s) := VDS.shutdownVDS_enter w in
                    (w1, Returned s));;
   ret tt)%js.

Definition routerListener : JS Process unit :=
  (_ <- shutdownHandler_enter;; ret tt)%js.

Definition listeners (e : ProcessEvent) : list (JS Process unit) :=
  match e with
  | exitEvent => [vdsListener]
  | SIGINT => [vdsListener; routerListener]
  | SIGTERM => [routerListener]
  end.

Fixpoint callEach (ls : list (JS Process unit)) : JS Process unit :=
  match ls with
  | [] => ret tt
  | l :: rest => (l;; callEach rest)%js
  end.

(** [process.emit(e)]: every listener runs up to its first [await]. *)
Definition emitEvent (e : ProcessEvent) : JS Process unit :=
  callEach (listeners e).

End AppRouter.

(** ** Vocabulary of the statements *)

(** The shapes the singleton takes under request traffic alone, with the
    tickets handed out so far: nothing created and no ticket; one attempt in
    flight; that attempt fulfilled and its server installed; that attempt
    rejected. *)
Definition singleFlight (w : VDS.World) (tickets : list VDS.Ticket) : Prop :=
  VDS.closeCalls w = [] ∧
  match VDS.promises w with
  | [] =>
      VDS.promiseVDS w = None ∧ VDS.instanceVDS w = None ∧ tickets = []
  | [VDS.Pending] =>
      VDS.promiseVDS w = Some 0 ∧ VDS.instanceVDS w = None ∧
      tickets ≠ [] ∧ Forall (eq (VDS.Awaited 0)) tickets
  | [VDS.Fulfilled server] =>
      VDS.promiseVDS w = Some 0 ∧ VDS.instanceVDS w = Some server ∧
      tickets ≠ [] ∧
      Forall (λ t, t = VDS.Awaited 0 ∨ t = VDS.Instance server) tickets
  | [VDS.Rejected _] =>
      VDS.promiseVDS w = Some 0 ∧ VDS.instanceVDS w = None ∧
      tickets ≠ [] ∧ Forall (eq (VDS.Awaited 0)) tickets
  | _ => False
  end.

(** What the bookkeeping promises of the store it runs beside: a pair with
    an origin is the pair stored, and one written by [setValue] passed the
    validator registered at the time, or there was none. *)
Definition originSound (s : Service.State)
    (origin : gmap string Service.Write) : Prop :=
  ∀ key w,
    origin !! key = Some w →
    Service.properties s !! key = Some (Service.written w) ∧
    (Service.writer w = Service.BySetValue → Service.validated w).

(** A layer that [register] binds for one of the routes [rs]: the route's
    method and path, and a chain that ends in the wrapped endpoint. *)
Definition wrapsRouteOf (rs : list Controller.Route) (l : Controller.Layer)
  : Prop :=
  ∃ route chain,
    route ∈ rs ∧
    l = Controller.RouteLayer (Controller.method route)
          (Controller.path route) (chain ++ [Controller.wrapEndpoint route]).

(** The phases of [initialize] that follow [registerControllers]. *)
Definition laterPhases (rt : Controller.Runtime) (app : AppRouter.t)
  : JS Controller.RouterState unit :=
  (Controller.log "[AppRouter]: Controllers registered.";;
   AppRouter.registerServing rt app;;
   Controller.log "[AppRouter]: CoreController registered.";;
   AppRouter.registerViews rt app;;
   Controller.log "[AppRouter]: Views registered.";;
   AppRouter.registerFallback;;
   Controller.log "[AppRouter]: Fallback registered.")%js.

(** The layers [registerViews] binds. *)
Definition viewLayers (rt : Controller.Runtime)
    (views : list (string * AppRouter.Component)) : list Controller.Layer :=
  if bool_decide (Controller.NODE_ENV rt = Some "development") then []
  else map (λ view, Controller.RouteLayer "get" view.1
                      [AppRouter.viewHandler view.2]) views.

(** ** Example data *)

(** The validator of the examples: an age is a number from 18 up. *)
Definition isAdult (v : Service.Value) : bool :=
  match v with
  | Service.VNum n => (18 <=? n)%Z
  | _ => false
  end.

(** Example surroundings: express's [Router] has a property for every HTTP
    verb, and [all], [use], [route] and [param]. *)
Definition expressHas (name : string) : bool :=
  bool_decide (name ∈ ["get"; "post"; "put"; "patch"; "delete"; "options";
                       "head"; "all"; "use"; "route"; "param"]).

Definition runningIn (env : option string) : Controller.Runtime :=
  Controller.mkRuntime env expressHas.

Definition emptyRouter : Controller.RouterState :=
  Controller.mkRouterState [] [].

(** An endpoint that throws, with an [errorFn] that returns. *)
Definition boomRoute : Controller.Route :=
  {| Controller.method := "get";
     Controller.path := "/boom";
     Controller.errorFn := Some (λ _ _, ret tt);
     Controller.validationFn := None;
     Controller.shouldRegister := None;
     Controller.endpointFn := λ _, throw "boom";
     Controller.handlers := None;
     Controller.envScope := None |}.

(** The same endpoint, with an [errorFn] that throws in its turn. *)
Definition hookThrowsRoute : Controller.Route :=
  {| Controller.method := "get";
     Controller.path := "/boom";
     Controller.errorFn := Some (λ _ _, throw "telemetry down");
     Controller.validationFn := None;
     Controller.shouldRegister := None;
     Controller.endpointFn := λ _, throw "boom";
     Controller.handlers := None;
     Controller.envScope := None |}.

(** A process whose dev server is up: one creation, fulfilled with
    instance 7. *)
Definition serving : AppRouter.Process :=
  AppRouter.mkProcess false
    (VDS.createServerResolves 0 7 (VDS.call VDS.getMiddleware VDS.init).1)
    [].

(** Example data: what a core controller uses, a controller whose second
    route names no HTTP method, and one that registers. *)
Definition exampleDeps : CoreController.Deps :=
  CoreController.mkDeps (λ _, Controller.next None) (λ _, None)
    (Controller.Fulfilled (λ _, Controller.next None))
    (λ targetURL, Returned ("<html>" +:+ targetURL +:+ "</html>")).

Definition fetchRoute : Controller.Route :=
  {| Controller.method := "fetch";
     Controller.path := "/items";
     Controller.errorFn := None;
     Controller.validationFn := None;
     Controller.shouldRegister := None;
     Controller.endpointFn := λ _, ret tt;
     Controller.handlers := None;
     Controller.envScope := None |}.

Definition goodController : Controller.t :=
  Controller.mkController [boomRoute] None.

Definition badController : Controller.t :=
  Controller.mkController [boomRoute; fetchRoute] None.

(** ** [core/VDS.ts], the rest of the class *)

Module VDSLife.
Import VDS.

(** What happens to a [VDS] over its life: request traffic, and calls of
    [shutdownVDS] that run to completion before anything else happens;
    [closeResult] is how [close()] ends if it is called. *)
Inductive Step : Type :=
| Traffic (e : Event)
| Shutdown (closeResult : option Error).

Definition stepLife (st : Step) (w : World) : World * list Ticket :=
  match st with
  | Traffic e => step e w
  | Shutdown closeResult => ((shutdownVDS closeResult w).1, [])
  end.

Fixpoint runLife (steps : list Step) (w : World) : World * list Ticket :=
  match steps with
  | [] => (w, [])
  | st :: rest =>
      let '(w1, ts1) := stepLife st w in
      let '(w2, ts2) := runLife rest w1 in
      (w2, ts1 ++ ts2)
  end.

Definition isRequest (st : Step) : bool :=
  match st with
  | Traffic (Call _) => true
  | _ => false
  end.

(** The engine instance as the class uses it:
    [server.transformIndexHtml(url, html)], given by how the call ends. *)
Record Engine : Type := mkEngine {
  transformIndexHtml : ViteDevServer → string → string → Outcome string
}.

(** [public async transformTemplate(targetURL)] after its
    [await this.getVDS()]: [awaited] is what the await gave. *)
Definition transformTemplate_resume (engine : Engine) (template : string)
    (targetURL : string) (awaited : Outcome ViteDevServer) : Outcome string :=
  match awaited with
  | Returned server => transformIndexHtml engine server targetURL template
  | Thrown error => Thrown error
  | Exited code => Exited code
  end.

(** The part of vite's [InlineConfig] the constructor looks at: [root]
    ([None] when undefined), the options under [server] ([None] when
    undefined) with their values, and the other options. *)
Inductive Setting : Type :=
| Flag (b : bool)
| Text (s : string)
| Number (n : Z).

Record InlineConfig : Type := mkInlineConfig {
  root : option string;
  server : option (gmap string Setting);
  others : gmap string Setting
}.

(** [this.configVDS] as the constructor builds it; [cwd] is
    [process.cwd()].  [customConfig.root || cwd] falls back for an
    undefined and for an empty root; in [{ middlewareMode: true,
    ...customConfig.server }] the caller's options come last and win. *)
Definition configVDS (cwd : string) (customConfig : InlineConfig)
  : InlineConfig :=
  mkInlineConfig
    (Some match root customConfig with
          | Some r => if bool_decide (r = EmptyString) then cwd else r
          | None => cwd
          end)
    (Some (default ∅ (server customConfig)
           ∪ {["middlewareMode" := Flag true]}))
    (others customConfig).

End VDSLife.

(** ** Vocabulary of the further statements *)


(** The key an operation of the store is about; [resetProps] has none. *)
Definition keyOf (op : Service.Op) : option string :=
  match op with
  | Service.SetValue key _ => Some key
  | Service.SetNewProp key _ => Some key
  | Service.RemoveProp key => Some key
  | Service.ResetProps _ => None
  | Service.RegisterValidator key _ => Some key
  end.

(** What the two fields and the promise store keep to, shutdowns included:
    a pending attempt is the stored one and excludes an instance; an
    instance is the server of the stored, fulfilled attempt; and the engine
    has been created at most once more than [close()] has been called. *)
Definition lifeInv (w : VDS.World) : Prop :=
  (∀ p, VDS.promises w !! p = Some VDS.Pending →
        VDS.promiseVDS w = Some p ∧ VDS.instanceVDS w = None) ∧
  (∀ server, VDS.instanceVDS w = Some server →
        ∃ p, VDS.promiseVDS w = Some p ∧
             VDS.promises w !! p = Some (VDS.Fulfilled server)) ∧
  VDS.createServerCalls w
    ≤ length (VDS.closeCalls w)
      + (match VDS.promiseVDS w with Some _ => 1 | None => 0 end).

(** The handlers of settled entries, in order. *)
Definition resolved (entries : list Controller.HandlerEntry)
  : list Controller.Handler :=
  omap (λ entry,
          match entry with
          | Controller.Ready h => Some h
          | Controller.Fulfilled h => Some h
          | Controller.Rejected _ => None
          end) entries.

(** A route that [register] goes on to bind: its [shouldRegister], if any,
    returns [true], it is in scope, its method passes [isRequestMethod],
    and none of its handler promises is rejected. *)
Definition bindable (rt : Controller.Runtime) (route : Controller.Route)
  : Prop :=
  (Controller.shouldRegister route = None ∨
   Controller.shouldRegister route = Some (Returned true)) ∧
  Controller.outOfScope rt (Controller.envScope route) = false ∧
  Controller.isRequestMethod rt (Controller.method route) = true ∧
  Forall (λ entry, ∀ error, entry ≠ Controller.Rejected error)
    (default [] (Controller.handlers route)).

(** The layer of a bindable route: the validation middleware if the route
    has a [validationFn], its handlers in order, its wrapped endpoint. *)
Definition layerOf (route : Controller.Route) : Controller.Layer :=
  Controller.RouteLayer (Controller.method route) (Controller.path route)
    (match Controller.validationFn route with
     | Some validate => [Controller.validationMiddleware validate]
     | None => []
     end
     ++ resolved (default [] (Controller.handlers route))
     ++ [Controller.wrapEndpoint route]).

(** The state [t] added to the state [s]: its layers and lines after
    those of [s]. *)
Definition appended (s t : Controller.RouterState) : Controller.RouterState :=
  Controller.mkRouterState (Controller.stack s ++ Controller.stack t)
    (Controller.console s ++ Controller.console t).

(** Further example routes: one for production only and one whose
    [shouldRegister] says no, both with a method that is no HTTP method. *)
Definition productionOnlyRoute : Controller.Route :=
  {| Controller.method := "fetch";
     Controller.path := "/items";
     Controller.errorFn := None;
     Controller.validationFn := None;
     Controller.shouldRegister := None;
     Controller.endpointFn := λ _, ret tt;
     Controller.handlers := Some [Controller.Rejected "no middleware"];
     Controller.envScope := Some Controller.production |}.

Definition declinedRoute : Controller.Route :=
  {| Controller.method := "fetch";
     Controller.path := "/items";
     Controller.errorFn := None;
     Controller.validationFn := None;
     Controller.shouldRegister := Some (Returned false);
     Controller.endpointFn := λ _, ret tt;
     Controller.handlers := None;
     Controller.envScope := None |}.

(** A route with a method express has and the six verbs lack, and a
    bindable route with a [validationFn] and two handlers. *)
Definition headRoute : Controller.Route :=
  {| Controller.method := "head";
     Controller.path := "/items";
     Controller.errorFn := None;
     Controller.validationFn := None;
     Controller.shouldRegister := None;
     Controller.endpointFn := λ _, ret tt;
     Controller.handlers := None;
     Controller.envScope := None |}.

Definition checkedRoute : Controller.Route :=
  {| Controller.method := "post";
     Controller.path := "/items";
     Controller.errorFn := None;
     Controller.validationFn := Some (λ _, throw "no body");
     Controller.shouldRegister := Some (Returned true);
     Controller.endpointFn := λ _, ret tt;
     Controller.handlers :=
       Some [Controller.Ready (λ _, Controller.next None);
             Controller.Fulfilled (λ _, Controller.next None)];
     Controller.envScope := Some Controller.production |}.

(** What a core controller uses when the dev server failed to start. *)
Definition failedDeps : CoreController.Deps :=
  CoreController.mkDeps (λ _, Controller.next None) (λ _, None)
    (Controller.Rejected "ECONNREFUSED") (λ _, Thrown "ECONNREFUSED").

(** ** Ordinary keys, kept promises *)

(** The property names an object literal inherits from [Object.prototype].
    [this.validators] and [this.properties] are object literals, read with
    [obj[key]] and [key in obj]: at one of these names a read that finds no
    own property gives the inherited member, and an assignment to
    ["__proto__"] sets the prototype of the object, or does nothing, where
    at any other key it stores.  The maps of [Service.State] are the own
    properties of the two objects. *)
Definition objectPrototypeNames : list string :=
  ["__proto__"; "__defineGetter__"; "__defineSetter__"; "__lookupGetter__";
   "__lookupSetter__"; "constructor"; "hasOwnProperty"; "isPrototypeOf";
   "propertyIsEnumerable"; "toLocaleString"; "toString"; "valueOf"].

(** A key at which an object literal holds what was stored there and
    nothing else. *)
Definition ordinary (key : string) : Prop := key ∉ objectPrototypeNames.

(** Operations on ordinary keys only ([resetProps] has no key).  After
    these the two objects still have [Object.prototype] as their prototype,
    and their own properties are those of the state [Service.run] gives. *)
Definition plainUse (ops : list Service.Op) : Prop :=
  Forall (λ op, ∀ key, keyOf op = Some key → ordinary key) ops.

(** No handler promise of the controller is rejected.  A promise in a
    [handlers] array exists from the construction of its controller, and
    [register] attaches to it only at the turn of its route, if that turn
    comes: a promise rejected while nothing is attached to it is an
    unhandled rejection, on which Node ends the process whatever
    [initialize] is doing then. *)
Definition promisesKept (c : Controller.t) : Prop :=
  Forall (λ route,
            Forall (λ entry, ∀ error, entry ≠ Controller.Rejected error)
              (default [] (Controller.handlers route)))
    (Controller.routes c).

(** One of the controllers has an [onRegister], or a route with a
    [shouldRegister], whose call ends the process with the code. *)
Definition hookExits (cs : list Controller.t) (code : nat) : Prop :=
  ∃ c, c ∈ cs ∧
    (Controller.onRegister c = Some (Exited code) ∨
     ∃ route, route ∈ Controller.routes c ∧
       Controller.shouldRegister route = Some (Exited code)).


(** The line [registerServing] logs when [register] of the core controller
    ends. *)
Definition servingFailure (ended : Outcome unit) : list string :=
  match ended with
  | Thrown error => ["[Router]: Failed to register CoreController: " +:+ error]
  | _ => []
  end.

(** The lines [registerViews] logs. *)
Definition viewLines (rt : Controller.Runtime)
    (views : list (string * AppRouter.Component)) : list string :=
  if bool_decide (Controller.NODE_ENV rt = Some "development") then
    ["[Router]: Skipping view rendering in development mode (Vite handles it)."]
  else map (λ view, "[Router]: Registering view for path: " +:+ view.1) views.

(** * Properties *)

(** ** The dev-server singleton *)

Lemma singleFlight_init : singleFlight VDS.init [].
Proof. repeat split. Qed.

Lemma call_getVDS (r : VDS.Request) (w : VDS.World) :
  VDS.call r w = VDS.getVDS w.
Proof. by destruct r. Qed.

Lemma app_singleton_not_nil {A : Type} (l : list A) (x : A) : l ++ [x] ≠ [].
Proof. by destruct l. Qed.

Lemma singleFlight_step (e : VDS.Event) (w : VDS.World)
    (tickets : list VDS.Ticket) :
  singleFlight w tickets →
  singleFlight (VDS.step e w).1 (tickets ++ (VDS.step e w).2).
Proof.
  destruct w as [pr inst ps cl]. unfold singleFlight. simpl.
  intros [-> H].
  destruct ps as [|[|server|error] [|]]; try done.
  - (* nothing created yet *)
    destruct H as (-> & -> & ->).
    destruct e as [r|p s|p err]; simpl; rewrite ?call_getVDS; simpl.
    + repeat split; try done. by repeat constructor.
    + by destruct p.
    + by destruct p.
  - (* in flight *)
    destruct H as (-> & -> & Hne & Hts).
    destruct e as [r|p s|p err]; simpl; rewrite ?call_getVDS; simpl.
    + repeat split; try done; [apply app_singleton_not_nil|].
      apply Forall_app; split; [done | by repeat constructor].
    + destruct p as [|p]; simpl; rewrite app_nil_r; repeat split; try done.
      eapply Forall_impl; [exact Hts | naive_solver].
    + destruct p as [|p]; simpl; rewrite app_nil_r; by repeat split.
  - (* ready *)
    destruct H as (-> & -> & Hne & Hts).
    destruct e as [r|p s|p err]; simpl; rewrite ?call_getVDS; simpl.
    + repeat split; try done; [apply app_singleton_not_nil|].
      apply Forall_app; split; [done|].
      constructor; [by right | constructor].
    + destruct p as [|p]; simpl; rewrite app_nil_r; by repeat split.
    + destruct p as [|p]; simpl; rewrite app_nil_r; by repeat split.
  - (* failed *)
    destruct H as (-> & -> & Hne & Hts).
    destruct e as [r|p s|p err]; simpl; rewrite ?call_getVDS; simpl.
    + repeat split; try done; [apply app_singleton_not_nil|].
      apply Forall_app; split; [done | by repeat constructor].
    + destruct p as [|p]; simpl; rewrite app_nil_r; by repeat split.
    + destruct p as [|p]; simpl; rewrite app_nil_r; by repeat split.
Qed.

Lemma singleFlight_run (events : list VDS.Event) :
  ∀ w tickets,
    singleFlight w tickets →
    singleFlight (VDS.run events w).1 (tickets ++ (VDS.run events w).2).
Proof.
  induction events as [|e rest IH]; intros w tickets H; simpl.
  - by rewrite app_nil_r.
  - pose proof (singleFlight_step e w tickets H) as Hs.
    destruct (VDS.step e w) as [w1 ts1]. simpl in Hs.
    specialize (IH w1 (tickets ++ ts1) Hs).
    destruct (VDS.run rest w1) as [w2 ts2]. simpl in *.
    by rewrite app_assoc.
Qed.

Lemma run_tickets_length (events : list VDS.Event) :
  ∀ w, length (VDS.run events w).2 = length (filter VDS.isCall events).
Proof.
  induction events as [|e rest IH]; intros w; simpl; [done|].
  destruct (VDS.step e w) as [w1 ts1] eqn:Hs.
  specialize (IH w1). destruct (VDS.run rest w1) as [w2 ts2]. simpl in *.
  rewrite length_app, IH.
  destruct e; simpl in *.
  - destruct (VDS.call r w). by inversion Hs.
  - by inversion Hs.
  - by inversion Hs.
Qed.

(** C1.  Single-flight creation.  Whatever way calls of [transformTemplate],
    [getMiddleware] and [errorVDS] on a fresh [VDS] interleave with the
    engine's answers, there is one ticket per call, [createServer] is called
    exactly once as soon as there is one call, and every caller's [await]
    yields what the one creation attempt (promise 0) yields: the same
    instance for all, or the same failure for all. *)
Theorem VDS_single_flight (events : list VDS.Event) :
  let w := (VDS.run events VDS.init).1 in
  let tickets := (VDS.run events VDS.init).2 in
  length tickets = length (filter VDS.isCall events) ∧
  VDS.createServerCalls w = (match tickets with [] => 0 | _ => 1 end) ∧
  (∀ t, t ∈ tickets →
     VDS.awaitTicket w t = VDS.awaitTicket w (VDS.Awaited 0)) ∧
  (∀ t1 t2, t1 ∈ tickets → t2 ∈ tickets →
     VDS.awaitTicket w t1 = VDS.awaitTicket w t2).
Proof.
  intros w tickets.
  pose proof (singleFlight_run events VDS.init [] singleFlight_init) as H.
  simpl in H. fold w tickets in H.
  assert (Hall : ∀ t, t ∈ tickets →
            VDS.awaitTicket w t = VDS.awaitTicket w (VDS.Awaited 0)).
  { intros t Ht. destruct H as [_ H]. unfold VDS.awaitTicket.
    destruct (VDS.promises w) as [|[|server|error] [|]] eqn:Hp; try done;
      [ destruct H as (_ & _ & Hts); rewrite Hts in Ht; by inversion Ht | ..];
      destruct H as (_ & _ & _ & Hts);
      rewrite Forall_forall in Hts; specialize (Hts t Ht);
      try (by subst t); by destruct Hts as [-> | ->]. }
  split; [apply run_tickets_length|]. split; [|split; [exact Hall|]].
  - destruct H as [_ H]. unfold VDS.createServerCalls.
    destruct (VDS.promises w) as [|[|server|error] [|]] eqn:Hp; try done;
      [ destruct H as (_ & _ & Hts); by rewrite Hts | ..];
      destruct H as (_ & _ & Hne & _); by destruct tickets.
  - intros t1 t2 H1 H2. by rewrite (Hall t1 H1), (Hall t2 H2).
Qed.

(** Once an attempt is stored, [getVDS] hands out that promise for as long
    as no instance is installed, whatever became of the attempt. *)
Lemma getVDS_stored_promise (w : VDS.World) (p : VDS.PromiseId) :
  VDS.instanceVDS w = None → VDS.promiseVDS w = Some p →
  VDS.getVDS w = (w, VDS.Awaited p).
Proof. intros Hi Hp. unfold VDS.getVDS. by rewrite Hi, Hp. Qed.

(** C2.  The code at the failing input: the first request starts an
    attempt, the engine rejects it, a second request follows.  The rejected
    promise is still stored, the second request gets that same promise and
    its failure, and [createServer] has been called once, not twice. *)
Theorem VDS_failed_creation_is_not_retried :
  let '(w, tickets) :=
    VDS.run [VDS.Call VDS.getMiddleware;
             VDS.Rejects 0 "ECONNREFUSED";
             VDS.Call (VDS.transformTemplate "/")] VDS.init in
  VDS.instanceVDS w = None ∧
  VDS.promiseVDS w = Some 0 ∧
  VDS.createServerCalls w = 1 ∧
  tickets = [VDS.Awaited 0; VDS.Awaited 0] ∧
  VDS.awaitTicket w (VDS.Awaited 0) = Some (Thrown "ECONNREFUSED").
Proof. by vm_compute. Qed.

Lemma shutdownVDS_resume_clears (c : option Error) (w : VDS.World) :
  VDS.shutdownVDS_resume c w = (VDS.clearReferences w, Returned tt).
Proof. by destruct c. Qed.

Lemma shutdownVDS_returns (c : option Error) (w : VDS.World) :
  (VDS.shutdownVDS c w).2 = Returned tt.
Proof.
  unfold VDS.shutdownVDS, VDS.shutdownVDS_enter.
  destruct (VDS.instanceVDS w); [|done]. by rewrite shutdownVDS_resume_clears.
Qed.

Lemma shutdownVDS_no_instance (c : option Error) (w : VDS.World) :
  VDS.instanceVDS w = None → VDS.shutdownVDS c w = (w, Returned tt).
Proof.
  intros H. unfold VDS.shutdownVDS, VDS.shutdownVDS_enter. by rewrite H.
Qed.

(** C3.  Shutdown idempotence.  A call of [shutdownVDS] returns normally
    whether [close()] resolved or rejected ([c1]); with a live instance it
    calls [close()] on it once and clears both references; with none it
    changes nothing.  A second call right after it changes nothing and
    returns normally. *)
Theorem VDS_shutdown_idempotent (w : VDS.World) (c1 c2 : option Error) :
  let once := VDS.shutdownVDS c1 w in
  let twice := VDS.shutdownVDS c2 once.1 in
  once.2 = Returned tt ∧
  twice = (once.1, Returned tt) ∧
  VDS.instanceVDS once.1 = None ∧
  match VDS.instanceVDS w with
  | Some server =>
      VDS.promiseVDS once.1 = None ∧
      VDS.closeCalls once.1 = VDS.closeCalls w ++ [server] ∧
      VDS.promises once.1 = VDS.promises w
  | None => once.1 = w
  end.
Proof.
  destruct w as [pr [server|] ps cl], c1, c2; by cbv.
Qed.

(** C4, as the code has it.  With no instance installed and an attempt in
    flight, [shutdownVDS] returns normally and changes nothing: the attempt
    stays stored and in flight, and [close()] is called on nothing. *)
Theorem VDS_shutdown_while_initializing (w : VDS.World) (p : VDS.PromiseId)
    (c : option Error) :
  VDS.instanceVDS w = None →
  VDS.promiseVDS w = Some p →
  VDS.promises w !! p = Some VDS.Pending →
  VDS.shutdownVDS c w = (w, Returned tt) ∧
  VDS.instanceVDS (VDS.shutdownVDS c w).1 = None.
Proof.
  intros Hi _ _. rewrite (shutdownVDS_no_instance c w Hi). by split.
Qed.

(** C4 right after the first request on a fresh [VDS]. *)
Lemma VDS_shutdown_while_initializing_witness :
  let w := (VDS.call VDS.getMiddleware VDS.init).1 in
  VDS.shutdownVDS None w = (w, Returned tt) ∧
  VDS.instanceVDS (VDS.shutdownVDS None w).1 = None.
Proof.
  exact (VDS_shutdown_while_initializing
           (VDS.call VDS.getMiddleware VDS.init).1 0 None
           eq_refl eq_refl eq_refl).
Defined.

(** C4, as stated, fails: a request starts an attempt, [shutdownVDS] runs
    and returns normally, then the engine answers; no request was made
    after the shutdown, and the instance is installed all the same. *)
Lemma VDS_instance_appears_after_shutdown :
  let w1 := (VDS.call VDS.getMiddleware VDS.init).1 in
  let w2 := (VDS.shutdownVDS None w1).1 in
  let w3 := VDS.createServerResolves 0 7 w2 in
  (VDS.instanceVDS w1 = None ∧ VDS.promiseVDS w1 = Some 0 ∧
   VDS.promises w1 !! 0 = Some VDS.Pending) ∧
  (VDS.shutdownVDS None w1).2 = Returned tt ∧
  VDS.createServerCalls w3 = 1 ∧
  VDS.instanceVDS w3 = Some 7 ∧
  VDS.closeCalls w3 = [].
Proof. by vm_compute. Qed.

(** ** The property store *)



Example setValue_accepted :
  let h := Service.mkHooks true true true in
  let s := (Service.registerValidator "age" isAdult (Service.new ∅)).1 in
  let after := (Service.setValue h "age" (Service.VNum 40) s).1 in
  Service.getValue "age" after = Service.VNum 40 ∧
  Service.hookCalls after = [Service.OnSet "age" (Service.VNum 40)].
Proof. by vm_compute. Qed.

(** The bookkeeping does not touch the store: it ends as under the plain
    run. *)
Lemma runOps_run (h : Service.Hooks) (ops : list Service.Op) :
  ∀ s origin, (Service.runOps h ops s origin).1 = Service.run h ops s.
Proof.
  induction ops as [|op rest IH]; intros s origin; simpl; [done|].
  destruct (Service.exec h op s) as [s1 ended]. apply IH.
Qed.

Lemma originSound_exec (h : Service.Hooks) (op : Service.Op)
    (s : Service.State) (origin : gmap string Service.Write) :
  originSound s origin →
  originSound (Service.exec h op s).1
    (Service.track op s (Service.exec h op s).2 origin).
Proof.
  intros Hinv key w.
  destruct op as [k v|k v|k|defaults|k f]; simpl.
  - (* setValue *)
    unfold Service.setValue, bind, gets.
    destruct (Service.validators s !! k) as [validate|] eqn:Hv; simpl.
    + destruct (validate v) eqn:Hok; simpl; [|apply Hinv].
      destruct (decide (k = key)) as [->|Hne].
      * rewrite !lookup_insert_eq. intros [= <-]. split; [done|].
        intros _. by unfold Service.validated.
      * rewrite !lookup_insert_ne by done. apply Hinv.
    + destruct (decide (k = key)) as [->|Hne].
      * rewrite !lookup_insert_eq. intros [= <-]. split; [done|].
        intros _. by unfold Service.validated.
      * rewrite !lookup_insert_ne by done. apply Hinv.
  - (* setNewProp *)
    destruct (decide (k = key)) as [->|Hne].
    + rewrite !lookup_insert_eq. intros [= <-]. by split.
    + rewrite !lookup_insert_ne by done. apply Hinv.
  - (* removeProp *)
    destruct (decide (k = key)) as [->|Hne].
    + by rewrite lookup_delete_eq.
    + rewrite !lookup_delete_ne by done. apply Hinv.
  - (* resetProps *)
    by rewrite lookup_empty.
  - (* registerValidator *)
    apply Hinv.
Qed.

Lemma originSound_runOps (h : Service.Hooks) (ops : list Service.Op) :
  ∀ s origin,
    originSound s origin →
    originSound (Service.runOps h ops s origin).1
      (Service.runOps h ops s origin).2.
Proof.
  induction ops as [|op rest IH]; intros s origin Hinv; simpl; [done|].
  pose proof (originSound_exec h op s origin Hinv) as Hstep.
  destruct (Service.exec h op s) as [s1 ended]. by apply IH.
Qed.

(** C8, as the code has it.  After any sequence of [setValue],
    [setNewProp], [removeProp], [resetProps] and [registerValidator] on a
    store, a stored pair that was written by a successful [setValue] passed
    the validator registered for its key at the time, or none was
    registered. *)
Theorem Service_setValue_pairs_validated (h : Service.Hooks)
    (initialProps : gmap string Service.Value) (ops : list Service.Op)
    (key : string) (w : Service.Write) :
  let after := Service.runOps h ops (Service.new initialProps) ∅ in
  after.2 !! key = Some w →
  Service.writer w = Service.BySetValue →
  Service.properties after.1 !! key = Some (Service.written w) ∧
  Service.validated w.
Proof.
  intros after Ho Hw.
  assert (Hinv : originSound after.1 after.2).
  { apply originSound_runOps. intros k w'. by rewrite lookup_empty. }
  destruct (Hinv key w Ho) as [Hp Hval]. split; [done | by apply Hval].
Qed.

(** C8 after a refused and an accepted [setValue] under [isAdult]. *)
Lemma Service_setValue_pairs_validated_witness :
  Service.properties
    (Service.runOps (Service.mkHooks false false false)
       [Service.RegisterValidator "age" isAdult;
        Service.SetValue "age" (Service.VNum 3);
        Service.SetValue "age" (Service.VNum 40)]
       (Service.new ∅) ∅).1 !! "age" = Some (Service.VNum 40) ∧
  Service.validated
    (Service.mkWrite Service.BySetValue (Service.VNum 40) (Some isAdult)).
Proof.
  apply (Service_setValue_pairs_validated (Service.mkHooks false false false)
           ∅ _ "age"
           (Service.mkWrite Service.BySetValue (Service.VNum 40)
              (Some isAdult))).
  - by vm_compute.
  - reflexivity.
Defined.

(** C8, as stated, fails: [setNewProp] is a set operation too, and it
    stores a value the key's registered validator rejects. *)
Lemma Service_setNewProp_skips_validator :
  let after :=
    Service.runOps (Service.mkHooks false false false)
      [Service.RegisterValidator "age" isAdult;
       Service.SetNewProp "age" (Service.VNum 3)]
      (Service.new ∅) ∅ in
  let w := Service.mkWrite Service.BySetNewProp (Service.VNum 3)
             (Some isAdult) in
  after.2 !! "age" = Some w ∧
  Service.properties after.1 !! "age" = Some (Service.written w) ∧
  Service.validatorThen w = Some isAdult ∧
  isAdult (Service.written w) = false.
Proof. by vm_compute. Qed.

(** ** Route registration *)

Lemma wrapsRouteOf_mono (rs rs' : list Controller.Route)
    (l : Controller.Layer) :
  (∀ route, route ∈ rs → route ∈ rs') →
  wrapsRouteOf rs l → wrapsRouteOf rs' l.
Proof. intros Hsub (route & chain & Hin & ->). exists route, chain. auto. Qed.

Lemma promiseAll_state {S : Type} (entries : list Controller.HandlerEntry)
    (s : S) :
  (Controller.promiseAll entries s).1 = s.
Proof.
  induction entries as [|[h|h|error] rest IH]; simpl; try done;
    unfold bind; destruct (Controller.promiseAll rest s) as [s1 [hs| |]];
    simpl in *; by subst.
Qed.

Lemma promiseAll_not_exited {S : Type}
    (entries : list Controller.HandlerEntry) (s : S) (code : nat) :
  (Controller.promiseAll entries s).2 ≠ Exited code.
Proof.
  induction entries as [|[h|h|error] rest IH]; simpl; try done;
    unfold bind; destruct (Controller.promiseAll rest s) as [s1 [hs| |]];
    simpl in *; done.
Qed.

(** A turn of the loop adds lines to the console and binds nothing or one
    layer for its route, and that layer ends in the wrapped endpoint. *)
Lemma registerRoute_extends (rt : Controller.Runtime)
    (route : Controller.Route) (s : Controller.RouterState) :
  ∃ layers lines,
    (Controller.registerRoute rt route s).1
      = Controller.mkRouterState (Controller.stack s ++ layers)
          (Controller.console s ++ lines) ∧
    Forall (wrapsRouteOf [route]) layers.
Proof.
  destruct s as [st co].
  unfold Controller.registerRoute, bind, Controller.liftOutcome.
  destruct (Controller.shouldRegister route) as [[[|]|e|code]|]; simpl;
    try (exists [], []; by rewrite !app_nil_r);
    try (exists []; eexists; rewrite app_nil_r;
         split; [reflexivity | constructor]).
  all: destruct (Controller.outOfScope rt (Controller.envScope route));
    try (exists [], []; by rewrite !app_nil_r).
  all: destruct (Controller.isRequestMethod rt (Controller.method route));
    simpl; try (exists [], []; by rewrite !app_nil_r).
  all: pose proof (promiseAll_state
         (default [] (Controller.handlers route))
         (Controller.mkRouterState st co)) as Hst;
    destruct (Controller.promiseAll _ _) as [s1 [hs|e|code]];
    simpl in Hst; subst s1; simpl;
    try (exists [], []; by rewrite !app_nil_r).
  all: eexists; eexists; split; [reflexivity|]; constructor; [|constructor];
    eexists route, _; split; [by left | reflexivity].
Qed.

Lemma registerRoutes_extends (rt : Controller.Runtime)
    (rs : list Controller.Route) :
  ∀ s, ∃ layers lines,
    (Controller.registerRoutes rt rs s).1
      = Controller.mkRouterState (Controller.stack s ++ layers)
          (Controller.console s ++ lines) ∧
    Forall (wrapsRouteOf rs) layers.
Proof.
  induction rs as [|route rest IH]; intros s; simpl.
  - exists [], []. destruct s. by rewrite !app_nil_r.
  - destruct (registerRoute_extends rt route s) as (l1 & c1 & H1 & F1).
    assert (F1' : Forall (wrapsRouteOf (route :: rest)) l1).
    { eapply Forall_impl; [exact F1|]. intros l.
      apply wrapsRouteOf_mono. intros r ->%list_elem_of_singleton. by left. }
    unfold bind.
    destruct (Controller.registerRoute rt route s) as [s1 [[]|e|code]];
      simpl in *; try by exists l1, c1.
    destruct (IH s1) as (l2 & c2 & H2 & F2).
    exists (l1 ++ l2), (c1 ++ c2). rewrite H2, H1. simpl.
    rewrite !app_assoc. split; [done|].
    apply Forall_app; split; [done|].
    eapply Forall_impl; [exact F2|]. intros l.
    apply wrapsRouteOf_mono. intros r Hr. by right.
Qed.

Lemma register_extends (rt : Controller.Runtime) (c : Controller.t)
    (s : Controller.RouterState) :
  ∃ layers lines,
    (Controller.register rt c s).1
      = Controller.mkRouterState (Controller.stack s ++ layers)
          (Controller.console s ++ lines) ∧
    Forall (wrapsRouteOf (Controller.routes c)) layers.
Proof.
  unfold Controller.register, bind, Controller.liftOutcome.
  destruct (Controller.onRegister c) as [[[]|e|code]|]; simpl;
    try (exists [], []; destruct s; by rewrite !app_nil_r);
    apply registerRoutes_extends.
Qed.

Lemma register_stack (rt : Controller.Runtime) (c : Controller.t)
    (s : Controller.RouterState) :
  Controller.stack (Controller.register rt c s).1
    = Controller.stack s ++ Controller.registeredBy rt c s ∧
  Forall (wrapsRouteOf (Controller.routes c)) (Controller.registeredBy rt c s).
Proof.
  destruct (register_extends rt c s) as (layers & lines & Hs & Hf).
  unfold Controller.registeredBy. rewrite Hs. simpl.
  rewrite drop_app_length. by split.
Qed.

(** Without a [shouldRegister] that exits the process, a turn of the loop
    returns or throws. *)
Lemma registerRoute_not_exited (rt : Controller.Runtime)
    (route : Controller.Route) (s : Controller.RouterState) (code : nat) :
  Controller.shouldRegister route = None →
  (Controller.registerRoute rt route s).2 ≠ Exited code.
Proof.
  intros Hsr. unfold Controller.registerRoute, bind. rewrite Hsr. simpl.
  destruct (Controller.outOfScope rt (Controller.envScope route)); [done|].
  destruct (Controller.isRequestMethod rt (Controller.method route));
    simpl; [|done].
  pose proof (promiseAll_not_exited
                (default [] (Controller.handlers route)) s) as Hne.
  destruct (Controller.promiseAll _ s) as [s1 [hs|e|c]]; simpl in *;
    try done. intros [= <-]. by apply (Hne c).
Qed.

Lemma registerRoutes_not_exited (rt : Controller.Runtime)
    (rs : list Controller.Route) (code : nat) :
  Forall (λ route, Controller.shouldRegister route = None) rs →
  ∀ s, (Controller.registerRoutes rt rs s).2 ≠ Exited code.
Proof.
  induction 1 as [|route rest Hr _ IH]; intros s; simpl; [done|].
  pose proof (registerRoute_not_exited rt route s) as Hne.
  unfold bind.
  destruct (Controller.registerRoute rt route s) as [s1 [[]|e|c]];
    simpl in *; [apply IH | done |]. intros [= <-]. by apply (Hne c).
Qed.

(** C6, as the code has it.  Every layer that [register] binds for a
    controller is a route of the controller with its endpoint wrapped; and
    when the endpoint throws or rejects and the route has no [errorFn], or
    its [errorFn] is called with the error and returns, the wrapped
    endpoint then calls [next(error)] and returns. *)
Theorem Controller_endpoint_errors_forwarded (rt : Controller.Runtime)
    (c : Controller.t) (s : Controller.RouterState)
    (layer : Controller.Layer) :
  layer ∈ Controller.registeredBy rt c s →
  ∃ route chain,
    route ∈ Controller.routes c ∧
    layer = Controller.RouteLayer (Controller.method route)
              (Controller.path route)
              (chain ++ [Controller.wrapEndpoint route]) ∧
    ∀ req events events1 events2 error,
      Controller.endpointFn route req events = (events1, Thrown error) →
      match Controller.errorFn route with
      | Some hook => hook error req events1 = (events2, Returned tt)
      | None => events2 = events1
      end →
      Controller.wrapEndpoint route req events
        = (events2 ++ [Controller.Next (Some error)], Returned tt).
Proof.
  intros Hin.
  destruct (register_stack rt c s) as [_ Hf].
  rewrite Forall_forall in Hf.
  destruct (Hf layer Hin) as (route & chain & Hr & ->).
  exists route, chain. repeat split; [done|].
  intros req events events1 events2 error Hend Hhook.
  unfold Controller.wrapEndpoint, tryCatch, bind. rewrite Hend.
  destruct (Controller.errorFn route) as [hook|].
  - by rewrite Hhook.
  - by subst events2.
Qed.

(** C6 at the layer [register] binds for [boomRoute]. *)
Lemma Controller_endpoint_errors_forwarded_witness :
  ∃ route chain,
    route ∈ [boomRoute] ∧
    Controller.RouteLayer "get" "/boom" [Controller.wrapEndpoint boomRoute]
      = Controller.RouteLayer (Controller.method route)
          (Controller.path route)
          (chain ++ [Controller.wrapEndpoint route]) ∧
    ∀ req events events1 events2 error,
      Controller.endpointFn route req events = (events1, Thrown error) →
      match Controller.errorFn route with
      | Some hook => hook error req events1 = (events2, Returned tt)
      | None => events2 = events1
      end →
      Controller.wrapEndpoint route req events
        = (events2 ++ [Controller.Next (Some error)], Returned tt).
Proof.
  apply (Controller_endpoint_errors_forwarded (runningIn (Some "production"))
           (Controller.mkController [boomRoute] None) emptyRouter
           (Controller.RouteLayer "get" "/boom"
              [Controller.wrapEndpoint boomRoute])).
  vm_compute. constructor.
Defined.

Example boomRoute_forwards :
  Controller.wrapEndpoint boomRoute (Controller.mkRequest "/boom" "/boom") []
    = ([Controller.Next (Some "boom")], Returned tt).
Proof. reflexivity. Qed.

(** C6, as stated, fails: the route is registered, its endpoint throws,
    its [errorFn] is called and throws; the wrapped endpoint rejects and
    [next] is never called. *)
Lemma Controller_throwing_errorFn_stops_forwarding :
  let req := Controller.mkRequest "/boom" "/boom" in
  Controller.registeredBy (runningIn (Some "production"))
    (Controller.mkController [hookThrowsRoute] None) emptyRouter
    = [Controller.RouteLayer "get" "/boom"
         [Controller.wrapEndpoint hookThrowsRoute]] ∧
  Controller.endpointFn hookThrowsRoute req [] = ([], Thrown "boom") ∧
  Controller.wrapEndpoint hookThrowsRoute req []
    = ([], Thrown "telemetry down").
Proof. by vm_compute. Qed.

(** With [NODE_ENV] set to ["production"], [register] binds the production
    route of the core controller and nothing else. *)
Lemma CoreController_production (d : CoreController.Deps)
    (s : Controller.RouterState) :
  Controller.registeredBy (runningIn (Some "production"))
    (CoreController.controller d) s
  = [Controller.RouteLayer "get" "*"
       [CoreController.serveStatic d;
        Controller.wrapEndpoint (CoreController.productionRoute d)]].
Proof.
  unfold Controller.registeredBy. simpl. by rewrite drop_app_length.
Qed.

(** With [NODE_ENV] set to ["development"] and the dev server's middleware
    there, [register] binds the development route and nothing else. *)
Lemma CoreController_development (d : CoreController.Deps)
    (s : Controller.RouterState) (middleware : Controller.Handler) :
  CoreController.vdsMiddleware d = Controller.Fulfilled middleware →
  Controller.registeredBy (runningIn (Some "development"))
    (CoreController.controller d) s
  = [Controller.RouteLayer "get" "*"
       [CoreController.logUrl; middleware;
        Controller.wrapEndpoint (CoreController.developmentRoute d)]].
Proof.
  intros Hm. destruct d as [static send vm transform]. simpl in Hm. subst vm.
  unfold Controller.registeredBy. simpl. by rewrite drop_app_length.
Qed.

(** C5.  The code at the failing input, [NODE_ENV] unset: [getEnv] says
    ["development"], and [register] on the core controller binds neither
    of its two routes and logs nothing. *)
Theorem CoreController_unset_NODE_ENV_registers_nothing
    (d : CoreController.Deps) (has : string → bool)
    (s : Controller.RouterState) :
  let rt := Controller.mkRuntime None has in
  Application.getEnv rt = "development" ∧
  Controller.register rt (CoreController.controller d) s = (s, Returned tt) ∧
  Controller.registeredBy rt (CoreController.controller d) s = [].
Proof.
  intros rt. split; [done|].
  assert (H : Controller.register rt (CoreController.controller d) s
              = (s, Returned tt)) by reflexivity.
  split; [exact H|].
  unfold Controller.registeredBy. rewrite H. simpl. apply drop_all.
Qed.

(** ** Shutdown *)

Lemma onVDS_shutdownVDS (c : option Error) (p : AppRouter.Process) :
  AppRouter.onVDS (VDS.shutdownVDS c) p
  = (AppRouter.mkProcess (AppRouter.shuttingDown p)
       (VDS.shutdownVDS c (AppRouter.vds p)).1 (AppRouter.happened p),
     Returned tt).
Proof.
  unfold AppRouter.onVDS.
  pose proof (shutdownVDS_returns c (AppRouter.vds p)) as H.
  destruct (VDS.shutdownVDS c (AppRouter.vds p)) as [w ended].
  simpl in *. by subst.
Qed.

(** C9, as the code has it.  A first run of the router's shutdown handler
    calls [server.close] first.  If the listener failed to close, the
    process exits with code 1 and the handler has not touched the dev
    server.  If it closed, the handler calls [shutdownVDS] after that, and
    only when [NODE_ENV] is ["development"], and the process then exits
    with code 0, whether the dev server's [close()] resolved or
    rejected. *)
Theorem AppRouter_shutdown_order (rt : Controller.Runtime)
    (error closeResult : option Error) (p : AppRouter.Process) :
  AppRouter.shuttingDown p = false →
  let ended := AppRouter.shutdownHandler rt error closeResult p in
  match error with
  | Some _ =>
      ended.2 = Exited 1 ∧
      AppRouter.happened ended.1
        = AppRouter.happened p
          ++ [AppRouter.ListenerCloseCalled;
              AppRouter.ListenerCloseCompleted error;
              AppRouter.ProcessExit 1] ∧
      AppRouter.vds ended.1 = AppRouter.vds p
  | None =>
      ended.2 = Exited 0 ∧
      if bool_decide (Controller.NODE_ENV rt = Some "development") then
        AppRouter.happened ended.1
          = AppRouter.happened p
            ++ [AppRouter.ListenerCloseCalled;
                AppRouter.ListenerCloseCompleted None;
                AppRouter.ShutdownVDSCalled;
                AppRouter.ProcessExit 0] ∧
        AppRouter.vds ended.1
          = (VDS.shutdownVDS closeResult (AppRouter.vds p)).1
      else
        AppRouter.happened ended.1
          = AppRouter.happened p
            ++ [AppRouter.ListenerCloseCalled;
                AppRouter.ListenerCloseCompleted None;
                AppRouter.ProcessExit 0] ∧
        AppRouter.vds ended.1 = AppRouter.vds p
  end.
Proof.
  intros Hflag ended. subst ended.
  destruct p as [flag w evs]. simpl in Hflag. subst flag.
  unfold AppRouter.shutdownHandler, AppRouter.shutdownHandler_enter,
    AppRouter.serverCloseCallback, AppRouter.shutdownVDS, AppRouter.exit,
    AppRouter.record, bind, gets, modify, tryCatch, processExit, ret.
  simpl.
  destruct error as [e|]; simpl.
  - rewrite <- !app_assoc. by repeat split.
  - destruct (bool_decide (Controller.NODE_ENV rt = Some "development"));
      simpl.
    + rewrite onVDS_shutdownVDS. simpl. rewrite <- !app_assoc.
      by repeat split.
    + rewrite <- !app_assoc. by repeat split.
Qed.

(** C9 in development, listener and dev server both closing well. *)
Lemma AppRouter_shutdown_order_witness :
  (AppRouter.shutdownHandler (runningIn (Some "development")) None None
     serving).2 = Exited 0 ∧
  AppRouter.happened
    (AppRouter.shutdownHandler (runningIn (Some "development")) None None
       serving).1
    = [AppRouter.ListenerCloseCalled;
       AppRouter.ListenerCloseCompleted None;
       AppRouter.ShutdownVDSCalled;
       AppRouter.ProcessExit 0] ∧
  AppRouter.vds
    (AppRouter.shutdownHandler (runningIn (Some "development")) None None
       serving).1
    = (VDS.shutdownVDS None (AppRouter.vds serving)).1.
Proof.
  apply (AppRouter_shutdown_order (runningIn (Some "development")) None None
           serving).
  reflexivity.
Defined.

(** C9, as stated, fails: in development the listener closes, the handler
    calls [shutdownVDS], [close()] is called on the instance and rejects,
    and the process exits with code 0. *)
Lemma AppRouter_exit_0_when_close_fails :
  let ended :=
    AppRouter.shutdownHandler (runningIn (Some "development")) None
      (Some "EBUSY") serving in
  VDS.instanceVDS (AppRouter.vds serving) = Some 7 ∧
  VDS.closeCalls (AppRouter.vds ended.1) = [7] ∧
  AppRouter.happened ended.1
    = [AppRouter.ListenerCloseCalled;
       AppRouter.ListenerCloseCompleted None;
       AppRouter.ShutdownVDSCalled;
       AppRouter.ProcessExit 0] ∧
  ended.2 = Exited 0.
Proof. by vm_compute. Qed.

(** A run of the handler while a shutdown is in progress does nothing. *)
Lemma shutdownHandler_again (rt : Controller.Runtime)
    (error closeResult : option Error) (p : AppRouter.Process) :
  AppRouter.shuttingDown p = true →
  AppRouter.shutdownHandler rt error closeResult p = (p, Returned tt).
Proof.
  intros H. unfold AppRouter.shutdownHandler, AppRouter.shutdownHandler_enter,
    bind, gets. by rewrite H.
Qed.

(** X28.  Beside the router's handler, the [VDS] constructor's own
    ["SIGINT"] listener runs first on that signal: with a live instance,
    [close()] is called on it before [server.close] is called at all, in
    any environment. *)
Lemma SIGINT_closes_dev_server_first (p : AppRouter.Process)
    (server : VDS.ViteDevServer) :
  VDS.instanceVDS (AppRouter.vds p) = Some server →
  AppRouter.shuttingDown p = false →
  let first := (AppRouter.vdsListener p).1 in
  let ended := (AppRouter.emitEvent AppRouter.SIGINT p).1 in
  VDS.closeCalls (AppRouter.vds first)
    = VDS.closeCalls (AppRouter.vds p) ++ [server] ∧
  AppRouter.happened first = AppRouter.happened p
    ++ [AppRouter.ShutdownVDSCalled] ∧
  AppRouter.happened ended = AppRouter.happened p
    ++ [AppRouter.ShutdownVDSCalled; AppRouter.ListenerCloseCalled] ∧
  VDS.closeCalls (AppRouter.vds ended)
    = VDS.closeCalls (AppRouter.vds p) ++ [server].
Proof.
  destruct p as [flag [pr inst ps cl] evs]. simpl.
  intros -> ->. cbv -[app]. rewrite <- !app_assoc. by repeat split.
Qed.

(** The ["exit"] listener of the [VDS] constructor does the same when the
    process exits, in any environment. *)
Lemma exit_closes_dev_server (p : AppRouter.Process)
    (server : VDS.ViteDevServer) :
  VDS.instanceVDS (AppRouter.vds p) = Some server →
  VDS.closeCalls (AppRouter.vds (AppRouter.emitEvent AppRouter.exitEvent p).1)
    = VDS.closeCalls (AppRouter.vds p) ++ [server].
Proof.
  destruct p as [flag [pr inst ps cl] evs]. simpl. intros ->. by cbv -[app].
Qed.

(** On ["SIGTERM"] only the router's handler runs. *)
Lemma SIGTERM_only_router (p : AppRouter.Process) :
  AppRouter.emitEvent AppRouter.SIGTERM p
  = ((AppRouter.shutdownHandler_enter p).1,
     match (AppRouter.shutdownHandler_enter p).2 with
     | Returned _ => Returned tt
     | Thrown e => Thrown e
     | Exited c => Exited c
     end).
Proof.
  unfold AppRouter.emitEvent. simpl. unfold AppRouter.routerListener, bind.
  by destruct (AppRouter.shutdownHandler_enter p) as [p1 [b|e|c]].
Qed.

(** ** Start-up phases *)

Lemma registerEachView_ok (views : list (string * AppRouter.Component)) :
  ∀ s, ∃ lines,
    AppRouter.registerEachView views s
    = (Controller.mkRouterState
         (Controller.stack s
          ++ map (λ view, Controller.RouteLayer "get" view.1
                            [AppRouter.viewHandler view.2]) views)
         (Controller.console s ++ lines),
       Returned tt).
Proof.
  induction views as [|[path component] rest IH]; intros [st co]; simpl.
  - exists []. by rewrite !app_nil_r.
  - unfold bind at 1 2. simpl.
    destruct (IH (Controller.mkRouterState
                    (st ++ [Controller.RouteLayer "get" path
                              [AppRouter.viewHandler component]])
                    (co ++ ["[Router]: Registering view for path: "
                            +:+ path]))) as (lines & ->).
    simpl. eexists. by rewrite <- !app_assoc.
Qed.

Lemma registerViews_ok (rt : Controller.Runtime) (app : AppRouter.t)
    (s : Controller.RouterState) :
  ∃ lines,
    AppRouter.registerViews rt app s
    = (Controller.mkRouterState
         (Controller.stack s ++ viewLayers rt (AppRouter.viewMap app))
         (Controller.console s ++ lines),
       Returned tt).
Proof.
  unfold AppRouter.registerViews, viewLayers.
  destruct (bool_decide (Controller.NODE_ENV rt = Some "development")).
  - destruct s as [st co]. eexists. simpl. by rewrite app_nil_r.
  - apply registerEachView_ok.
Qed.

Lemma register_not_exited (rt : Controller.Runtime) (c : Controller.t)
    (s : Controller.RouterState) (code : nat) :
  Controller.onRegister c = None →
  Forall (λ route, Controller.shouldRegister route = None)
    (Controller.routes c) →
  (Controller.register rt c s).2 ≠ Exited code.
Proof.
  intros Hon Hrs. unfold Controller.register. rewrite Hon.
  unfold bind at 1. simpl. by apply registerRoutes_not_exited.
Qed.


Example failing_controller_console :
  Controller.console
    (AppRouter.initialize (runningIn (Some "production"))
       (AppRouter.mkAppRouter exampleDeps
          [goodController; badController; goodController] [])
       emptyRouter).1
  = ["[AppRouter]: Initializing controllers and views...";
     "[Controller]: Registering route: GET /boom (Env: all)";
     "[Router]: Registered API controller";
     "[Controller]: Registering route: GET /boom (Env: all)";
     "[Router]: Failed to register controllers: [Controller]: Method: fetch is not recognized as an HTTP method";
     "[AppRouter]: Controllers registered.";
     "[Controller]: Registering route: GET * (Env: production)";
     "[AppRouter]: CoreController registered.";
     "[AppRouter]: Views registered.";
     "[AppRouter]: Fallback registered."].
Proof. by vm_compute. Qed.

(** * Further properties *)

(** ** The dev-server singleton over its life *)

Lemma lifeInv_init : lifeInv VDS.init.
Proof.
  split; [|split]; simpl; [|done|done].
  intros p. by rewrite lookup_nil.
Qed.

Lemma lifeInv_getVDS (w : VDS.World) :
  lifeInv w → lifeInv (VDS.getVDS w).1.
Proof.
  intros H. pose proof H as (Hpend & Hinst & Hcount). unfold VDS.getVDS.
  destruct (VDS.instanceVDS w) as [server|] eqn:Hi; [exact H|].
  destruct (VDS.promiseVDS w) as [p|] eqn:Hp; [exact H|].
  unfold VDS.createServerCalls in *. simpl in *.
  split; [|split]; simpl.
  - intros q Hq.
    destruct (decide (q < length (VDS.promises w))) as [Hlt|Hge].
    + rewrite lookup_app_l in Hq by done.
      destruct (Hpend q Hq) as [? _]. congruence.
    + assert (q = length (VDS.promises w)) as ->; [|done].
      apply lookup_lt_Some in Hq. rewrite length_app in Hq. simpl in Hq. lia.
  - done.
  - unfold VDS.createServerCalls. simpl. rewrite length_app. simpl. lia.
Qed.

Lemma lifeInv_settle (w : VDS.World) (p : VDS.PromiseId)
    (inst : option VDS.ViteDevServer) (v : VDS.Promise) :
  lifeInv w →
  VDS.promises w !! p = Some VDS.Pending →
  v ≠ VDS.Pending →
  (∀ server, inst = Some server → v = VDS.Fulfilled server) →
  lifeInv (VDS.mkWorld (VDS.promiseVDS w) inst (<[p := v]> (VDS.promises w))
             (VDS.closeCalls w)).
Proof.
  intros (Hpend & Hinst & Hcount) Hp Hv Hfit.
  destruct (Hpend p Hp) as [Hcur Hnone].
  pose proof (lookup_lt_Some _ _ _ Hp) as Hlt.
  unfold VDS.createServerCalls in *. split; [|split]; simpl.
  - intros q Hq. destruct (decide (p = q)) as [<-|Hne].
    + rewrite list_lookup_insert_eq in Hq by done. congruence.
    + rewrite list_lookup_insert_ne in Hq by done.
      destruct (Hpend q Hq) as [? _]. congruence.
  - intros server ->. exists p. split; [done|].
    rewrite list_lookup_insert_eq by done. by rewrite (Hfit server).
  - unfold VDS.createServerCalls. simpl. by rewrite length_insert.
Qed.

Lemma lifeInv_shutdownVDS (c : option Error) (w : VDS.World) :
  lifeInv w → lifeInv (VDS.shutdownVDS c w).1.
Proof.
  intros H. pose proof H as (Hpend & Hinst & Hcount).
  unfold VDS.shutdownVDS, VDS.shutdownVDS_enter.
  destruct (VDS.instanceVDS w) as [server|] eqn:Hi; [|exact H].
  rewrite shutdownVDS_resume_clears. simpl.
  destruct (Hinst server eq_refl) as (p & Hp & _).
  unfold VDS.createServerCalls in *. rewrite Hp in Hcount.
  split; [|split]; simpl.
  - intros q Hq. destruct (Hpend q Hq) as [_ ?]. congruence.
  - done.
  - unfold VDS.createServerCalls. simpl. rewrite length_app. simpl. lia.
Qed.

Lemma lifeInv_stepLife (st : VDSLife.Step) (w : VDS.World) :
  lifeInv w → lifeInv (VDSLife.stepLife st w).1.
Proof.
  intros H. destruct st as [[r|p server|p error]|c]; simpl.
  - rewrite call_getVDS.
    pose proof (lifeInv_getVDS w H) as Hg. by destruct (VDS.getVDS w).
  - unfold VDS.createServerResolves.
    destruct (VDS.promises w !! p) as [[| |]|] eqn:Hp; try done.
    apply (lifeInv_settle w p (Some server) (VDS.Fulfilled server));
      try done. by intros ? [= <-].
  - unfold VDS.createServerRejects.
    destruct (VDS.promises w !! p) as [[| |]|] eqn:Hp; try done.
    by apply (lifeInv_settle w p None (VDS.Rejected error)).
  - by apply lifeInv_shutdownVDS.
Qed.

Lemma lifeInv_runLife (steps : list VDSLife.Step) :
  ∀ w, lifeInv w → lifeInv (VDSLife.runLife steps w).1.
Proof.
  induction steps as [|st rest IH]; intros w H; simpl; [done|].
  pose proof (lifeInv_stepLife st w H) as Hs.
  destruct (VDSLife.stepLife st w) as [w1 ts1]. simpl in Hs.
  specialize (IH w1 Hs). by destruct (VDSLife.runLife rest w1).
Qed.

(** X1.  One attempt at a time, shutdowns included.  After any sequence of
    requests, engine answers and completed [shutdownVDS] calls on a fresh
    [VDS], at most one creation attempt is pending; while one is, there is
    no instance, and a request is handed that attempt without a new
    [createServer] call. *)
Theorem VDS_one_pending_attempt (steps : list VDSLife.Step) :
  let w := (VDSLife.runLife steps VDS.init).1 in
  (∀ p q, VDS.promises w !! p = Some VDS.Pending →
          VDS.promises w !! q = Some VDS.Pending → p = q) ∧
  (∀ p, VDS.promises w !! p = Some VDS.Pending →
        VDS.instanceVDS w = None ∧
        VDS.getVDS w = (w, VDS.Awaited p)).
Proof.
  intros w.
  destruct (lifeInv_runLife steps VDS.init lifeInv_init) as (Hpend & _ & _).
  fold w in Hpend. split.
  - intros p q Hp Hq.
    destruct (Hpend p Hp) as [H1 _], (Hpend q Hq) as [H2 _]. congruence.
  - intros p Hp. destruct (Hpend p Hp) as [H1 H2]. split; [done|].
    by apply getVDS_stored_promise.
Qed.

(** X2.  Creations are bounded by closes.  After any such sequence,
    [createServer] has been called at most once more than [close()] has
    been called on an instance, and a live instance is always the server
    of the stored, fulfilled attempt. *)
Theorem VDS_creations_bounded_by_closes (steps : list VDSLife.Step) :
  let w := (VDSLife.runLife steps VDS.init).1 in
  VDS.createServerCalls w ≤ S (length (VDS.closeCalls w)) ∧
  (∀ server, VDS.instanceVDS w = Some server →
     ∃ p, VDS.promiseVDS w = Some p ∧
          VDS.awaitTicket w (VDS.Awaited p) = Some (Returned server)).
Proof.
  intros w.
  destruct (lifeInv_runLife steps VDS.init lifeInv_init) as (_ & Hinst & Hc).
  fold w in Hinst, Hc. split.
  - destruct (VDS.promiseVDS w); lia.
  - intros server Hs. destruct (Hinst server Hs) as (p & Hp & Hf).
    exists p. split; [done|]. simpl. by rewrite Hf.
Qed.

(** X3.  Restart after shutdown.  From a live instance, a completed
    [shutdownVDS] followed by a request starts a fresh creation attempt, one
    more [createServer] call, whether [close()] resolved or rejected; when
    the engine answers it, the new server is the instance requests get, and
    the earlier attempts keep what they settled to. *)
Theorem VDS_restart_after_shutdown (w : VDS.World)
    (server server' : VDS.ViteDevServer) (c : option Error) :
  VDS.instanceVDS w = Some server →
  let fresh := length (VDS.promises w) in
  let w1 := (VDS.shutdownVDS c w).1 in
  let w2 := (VDS.getVDS w1).1 in
  let w3 := VDS.createServerResolves fresh server' w2 in
  VDS.getVDS w1 = (w2, VDS.Awaited fresh) ∧
  VDS.createServerCalls w2 = S (VDS.createServerCalls w) ∧
  VDS.closeCalls w2 = VDS.closeCalls w ++ [server] ∧
  VDS.getVDS w3 = (w3, VDS.Instance server') ∧
  VDS.awaitTicket w3 (VDS.Awaited fresh) = Some (Returned server') ∧
  (∀ p, p < fresh → VDS.promises w3 !! p = VDS.promises w !! p).
Proof.
  intros Hi fresh w1 w2 w3. subst fresh w1 w2 w3.
  destruct w as [pr inst ps cl]. simpl in Hi. subst inst.
  unfold VDS.shutdownVDS, VDS.shutdownVDS_enter. simpl.
  rewrite shutdownVDS_resume_clears.
  unfold VDS.getVDS, VDS.createServerResolves, VDS.createServerCalls. simpl.
  rewrite lookup_app_r by done. rewrite Nat.sub_diag. simpl.
  rewrite list_lookup_insert_eq by (rewrite length_app; simpl; lia).
  repeat split; try done.
  - rewrite length_app. simpl. lia.
  - intros p Hp. rewrite list_lookup_insert_ne by lia.
    by rewrite lookup_app_l.
Qed.

(** X3 at the served process of the examples, with [close()] rejecting. *)
Lemma VDS_restart_after_shutdown_witness :
  let w := AppRouter.vds serving in
  let w1 := (VDS.shutdownVDS (Some "EBUSY") w).1 in
  let w2 := (VDS.getVDS w1).1 in
  let w3 := VDS.createServerResolves 1 8 w2 in
  VDS.getVDS w1 = (w2, VDS.Awaited 1) ∧
  VDS.createServerCalls w2 = S (VDS.createServerCalls w) ∧
  VDS.closeCalls w2 = VDS.closeCalls w ++ [7] ∧
  VDS.getVDS w3 = (w3, VDS.Instance 8) ∧
  VDS.awaitTicket w3 (VDS.Awaited 1) = Some (Returned 8) ∧
  (∀ p, p < 1 → VDS.promises w3 !! p = VDS.promises w !! p).
Proof.
  apply (VDS_restart_after_shutdown (AppRouter.vds serving) 7 8
           (Some "EBUSY")).
  reflexivity.
Defined.

(** X4.  A failed creation is final.  Once the stored attempt is rejected
    and nothing is pending, no sequence of requests, engine answers and
    shutdowns changes the [VDS]: every request is handed the rejected
    attempt, and [createServer] and [close()] are never called again. *)
Theorem VDS_failure_is_final (steps : list VDSLife.Step) (w : VDS.World)
    (p : VDS.PromiseId) (e : Error) :
  VDS.instanceVDS w = None →
  VDS.promiseVDS w = Some p →
  VDS.promises w !! p = Some (VDS.Rejected e) →
  (∀ q, VDS.promises w !! q ≠ Some VDS.Pending) →
  VDSLife.runLife steps w
    = (w, replicate (length (filter VDSLife.isRequest steps)) (VDS.Awaited p))
  ∧ VDS.awaitTicket w (VDS.Awaited p) = Some (Thrown e).
Proof.
  intros Hi Hp Hr Hnone. split; [|by simpl; rewrite Hr].
  induction steps as [|st rest IH]; simpl; [done|].
  assert (Hstep : VDSLife.stepLife st w
                  = (w, if VDSLife.isRequest st then [VDS.Awaited p] else [])).
  { destruct st as [[r|q server|q error]|c]; simpl.
    - by rewrite call_getVDS, (getVDS_stored_promise w p Hi Hp).
    - unfold VDS.createServerResolves.
      destruct (VDS.promises w !! q) as [[| |]|] eqn:Hq; try done.
      by destruct (Hnone q).
    - unfold VDS.createServerRejects.
      destruct (VDS.promises w !! q) as [[| |]|] eqn:Hq; try done.
      by destruct (Hnone q).
    - by rewrite (shutdownVDS_no_instance c w Hi). }
  rewrite Hstep, IH, filter_cons.
  by destruct (VDSLife.isRequest st).
Qed.

(** X4 after the failure of the first attempt. *)
Lemma VDS_failure_is_final_witness :
  let w := VDS.createServerRejects 0 "ECONNREFUSED"
             (VDS.call VDS.getMiddleware VDS.init).1 in
  VDSLife.runLife
    [VDSLife.Traffic (VDS.Call (VDS.transformTemplate "/"));
     VDSLife.Shutdown None;
     VDSLife.Traffic (VDS.Resolves 0 7);
     VDSLife.Traffic (VDS.Call VDS.getMiddleware)] w
    = (w, replicate 2 (VDS.Awaited 0))
  ∧ VDS.awaitTicket w (VDS.Awaited 0) = Some (Thrown "ECONNREFUSED").
Proof.
  apply (VDS_failure_is_final
           [VDSLife.Traffic (VDS.Call (VDS.transformTemplate "/"));
            VDSLife.Shutdown None;
            VDSLife.Traffic (VDS.Resolves 0 7);
            VDSLife.Traffic (VDS.Call VDS.getMiddleware)]
           (VDS.createServerRejects 0 "ECONNREFUSED"
              (VDS.call VDS.getMiddleware VDS.init).1) 0 "ECONNREFUSED").
  - reflexivity.
  - reflexivity.
  - reflexivity.
  - intros [|q]; by vm_compute.
Defined.

(** X5.  Nothing guards a shutdown in progress.  Between the [close()]
    call of [shutdownVDS] and its completion the instance is still
    installed: a request is handed the instance that is being closed, and a
    second [shutdownVDS] calls [close()] on it again. *)
Theorem VDS_shutdown_in_progress_unguarded (w : VDS.World)
    (server : VDS.ViteDevServer) :
  VDS.instanceVDS w = Some server →
  let closing := (VDS.shutdownVDS_enter w).1 in
  VDS.closeCalls closing = VDS.closeCalls w ++ [server] ∧
  VDS.getVDS closing = (closing, VDS.Instance server) ∧
  VDS.createServerCalls closing = VDS.createServerCalls w ∧
  VDS.closeCalls (VDS.shutdownVDS_enter closing).1
    = VDS.closeCalls w ++ [server; server].
Proof.
  destruct w as [pr inst ps cl]. simpl. intros ->.
  unfold VDS.shutdownVDS_enter, VDS.getVDS. simpl.
  by rewrite <- app_assoc.
Qed.

Lemma VDS_shutdown_in_progress_unguarded_witness :
  let w := AppRouter.vds serving in
  let closing := (VDS.shutdownVDS_enter w).1 in
  VDS.closeCalls closing = VDS.closeCalls w ++ [7] ∧
  VDS.getVDS closing = (closing, VDS.Instance 7) ∧
  VDS.createServerCalls closing = VDS.createServerCalls w ∧
  VDS.closeCalls (VDS.shutdownVDS_enter closing).1
    = VDS.closeCalls w ++ [7; 7].
Proof.
  apply (VDS_shutdown_in_progress_unguarded (AppRouter.vds serving) 7).
  reflexivity.
Defined.

(** X6.  [transformTemplate] needs no earlier [getMiddleware].  Called
    first on a fresh [VDS], it starts the one creation attempt; it yields
    nothing while the attempt is pending, the engine's transform of the
    held template for the url once the attempt is fulfilled, and the
    creation failure if it is rejected. *)
Theorem VDS_transformTemplate_creates (engine : VDSLife.Engine)
    (template targetURL : string) (server : VDS.ViteDevServer) (e : Error) :
  let w1 := (VDS.call (VDS.transformTemplate targetURL) VDS.init).1 in
  let t := (VDS.call (VDS.transformTemplate targetURL) VDS.init).2 in
  let result := λ w,
    VDSLife.transformTemplate_resume engine template targetURL
      <$> VDS.awaitTicket w t in
  VDS.createServerCalls w1 = 1 ∧
  result w1 = None ∧
  result (VDS.createServerResolves 0 server w1)
    = Some (VDSLife.transformIndexHtml engine server targetURL template) ∧
  result (VDS.createServerRejects 0 e w1) = Some (Thrown e).
Proof. by repeat split. Qed.

(** X7.  The constructor's configuration.  In [configVDS], [root] is the
    caller's unless that is undefined or empty, then the working
    directory; under [server] every option of the caller is kept,
    [middlewareMode] included, and [middlewareMode] is [true] only when the
    caller did not set it; the other options are the caller's. *)
Theorem VDS_configVDS_merge (cwd : string)
    (customConfig : VDSLife.InlineConfig) :
  let cfg := VDSLife.configVDS cwd customConfig in
  let theirs := default ∅ (VDSLife.server customConfig) in
  VDSLife.root cfg
    = Some (match VDSLife.root customConfig with
            | Some r => if bool_decide (r = EmptyString) then cwd else r
            | None => cwd
            end) ∧
  (∃ options,
     VDSLife.server cfg = Some options ∧
     (∀ k v, theirs !! k = Some v → options !! k = Some v) ∧
     (theirs !! "middlewareMode" = None →
      options !! "middlewareMode" = Some (VDSLife.Flag true)) ∧
     (∀ k, k ≠ "middlewareMode" → options !! k = theirs !! k)) ∧
  VDSLife.others cfg = VDSLife.others customConfig.
Proof.
  intros cfg theirs. split; [done|]. split; [|done].
  eexists. split; [reflexivity|]. fold theirs. repeat split.
  - intros k v Hk. by apply lookup_union_Some_l.
  - intros Hnone. rewrite lookup_union_r by done.
    apply lookup_singleton_eq.
  - intros k Hk. rewrite lookup_union_l; [done|].
    by rewrite lookup_singleton_ne.
Qed.

Example configVDS_caller_turns_middlewareMode_off :
  VDSLife.server
    (VDSLife.configVDS "/srv/app"
       (VDSLife.mkInlineConfig (Some EmptyString)
          (Some {["middlewareMode" := VDSLife.Flag false]}) ∅))
    = Some {["middlewareMode" := VDSLife.Flag false]} ∧
  VDSLife.root
    (VDSLife.configVDS "/srv/app"
       (VDSLife.mkInlineConfig (Some EmptyString)
          (Some {["middlewareMode" := VDSLife.Flag false]}) ∅))
    = Some "/srv/app".
Proof. by vm_compute. Qed.

(** ** The property store, the other operations *)



(** X9.  A stored [null] looks absent to [getValue], not to [hasProp].
    In a store used with ordinary keys, after [setNewProp(key, null)] at
    an ordinary key [getValue] returns [null], as it does once the key is
    removed, while [hasProp] tells the two apart. *)
Theorem Service_null_is_not_absent (h : Service.Hooks)
    (initialProps : gmap string Service.Value) (ops : list Service.Op)
    (key : string) :
  plainUse ops →
  ordinary key →
  let s := Service.run h ops (Service.new initialProps) in
  let stored := (Service.setNewProp h key Service.VNull s).1 in
  let removed := (Service.removeProp h key s).1 in
  Service.getValue key stored = Service.VNull ∧
  Service.getValue key removed = Service.VNull ∧
  Service.hasProp key stored = true ∧
  Service.hasProp key removed = false.
Proof.
  intros _ _ s. unfold Service.getValue, Service.hasProp. simpl.
  rewrite lookup_insert_eq, lookup_delete_eq.
  split; [done|]. split; [done|]. split.
  - by apply bool_decide_eq_true.
  - apply bool_decide_eq_false. by intros [? ?].
Qed.

(** X9 for the key ["nick"] of a store that holds a name. *)
Lemma Service_null_is_not_absent_witness :
  let h := Service.mkHooks true true true in
  let s := Service.run h [Service.SetNewProp "name" (Service.VStr "Ada")]
             (Service.new ∅) in
  let stored := (Service.setNewProp h "nick" Service.VNull s).1 in
  let removed := (Service.removeProp h "nick" s).1 in
  Service.getValue "nick" stored = Service.VNull ∧
  Service.getValue "nick" removed = Service.VNull ∧
  Service.hasProp "nick" stored = true ∧
  Service.hasProp "nick" removed = false.
Proof.
  intros h s.
  apply (Service_null_is_not_absent h ∅
           [Service.SetNewProp "name" (Service.VStr "Ada")] "nick").
  - constructor; [|constructor]. intros key [= <-].
    apply (bool_decide_unpack _). by vm_compute.
  - apply (bool_decide_unpack _). by vm_compute.
Defined.

(** X10.  Operations on one key leave the others alone.  [setValue],
    [setNewProp], [removeProp] and [registerValidator] on a key other than
    ["__proto__"] change neither the value nor the validator of any other
    key, however they end. *)
Theorem Service_other_keys_untouched (h : Service.Hooks) (op : Service.Op)
    (s : Service.State) (key other : string) :
  keyOf op = Some key →
  key ≠ "__proto__" →
  key ≠ other →
  let after := (Service.exec h op s).1 in
  Service.properties after !! other = Service.properties s !! other ∧
  Service.validators after !! other = Service.validators s !! other ∧
  Service.getValue other after = Service.getValue other s ∧
  Service.hasProp other after = Service.hasProp other s.
Proof.
  intros Hkey _ Hne after. subst after.
  assert (Hprops : Service.properties (Service.exec h op s).1 !! other
                   = Service.properties s !! other).
  { destruct op as [k v|k v|k|d|k f]; simpl in Hkey; simplify_eq; simpl.
    - unfold Service.setValue, bind, gets.
      destruct (Service.validators s !! key) as [validate|]; simpl;
        [destruct (validate v); simpl; [|done]|];
        by rewrite lookup_insert_ne.
    - by rewrite lookup_insert_ne.
    - by rewrite lookup_delete_ne.
    - done. }
  assert (Hvals : Service.validators (Service.exec h op s).1 !! other
                  = Service.validators s !! other).
  { destruct op as [k v|k v|k|d|k f]; simpl in Hkey; simplify_eq; simpl;
      try done.
    - unfold Service.setValue, bind, gets.
      destruct (Service.validators s !! key) as [validate|]; simpl;
        [by destruct (validate v)|done].
    - by rewrite lookup_insert_ne. }
  unfold Service.getValue, Service.hasProp. by rewrite Hprops, Hvals.
Qed.

Lemma Service_other_keys_untouched_witness :
  let s := Service.new {["age" := Service.VNum 30;
                         "name" := Service.VStr "Ada"]} in
  let after :=
    (Service.exec (Service.mkHooks true true true)
       (Service.RemoveProp "age") s).1 in
  Service.properties after !! "name" = Service.properties s !! "name" ∧
  Service.validators after !! "name" = Service.validators s !! "name" ∧
  Service.getValue "name" after = Service.getValue "name" s ∧
  Service.hasProp "name" after = Service.hasProp "name" s.
Proof.
  apply (Service_other_keys_untouched (Service.mkHooks true true true)
           (Service.RemoveProp "age")
           (Service.new {["age" := Service.VNum 30;
                          "name" := Service.VStr "Ada"]}) "age" "name").
  - reflexivity.
  - by vm_compute.
  - by vm_compute.
Defined.



(** X12.  Adding a new property and removing it again restores the
    properties. *)
Theorem Service_setNewProp_removeProp (h : Service.Hooks)
    (s : Service.State) (key : string) (value : Service.Value) :
  Service.properties s !! key = None →
  Service.properties
    (Service.removeProp h key (Service.setNewProp h key value s).1).1
  = Service.properties s.
Proof. intros Hnone. simpl. rewrite delete_insert_eq. by apply delete_id. Qed.

Lemma Service_setNewProp_removeProp_witness :
  Service.properties
    (Service.removeProp (Service.mkHooks true true true) "age"
       (Service.setNewProp (Service.mkHooks true true true) "age"
          (Service.VNum 3) (Service.new ∅)).1).1
  = Service.properties (Service.new ∅).
Proof.
  apply (Service_setNewProp_removeProp (Service.mkHooks true true true)
           (Service.new ∅) "age" (Service.VNum 3)).
  reflexivity.
Defined.

(** X13.  [resetProps] replaces the properties and keeps the validators.
    After it the properties are exactly the defaults given, which are not
    validated, and a value the key's validator rejected before the reset
    is still refused by [setValue]. *)
Theorem Service_resetProps_keeps_validators (h : Service.Hooks)
    (s : Service.State) (defaultProps : gmap string Service.Value)
    (key : string) (validate : Service.Value → bool)
    (newValue : Service.Value) :
  Service.validators s !! key = Some validate →
  validate newValue = false →
  let reset := (Service.resetProps h defaultProps s).1 in
  Service.properties reset = defaultProps ∧
  Service.validators reset = Service.validators s ∧
  Service.setValue h key newValue reset
    = (reset, Thrown (Service.validationFailed key)).
Proof.
  intros Hv Hrej reset. subst reset. simpl. repeat split.
  unfold Service.setValue, bind, gets. simpl. by rewrite Hv, Hrej.
Qed.

Lemma Service_resetProps_keeps_validators_witness :
  let h := Service.mkHooks false false false in
  let s := (Service.registerValidator "age" isAdult (Service.new ∅)).1 in
  let reset :=
    (Service.resetProps h {["age" := Service.VNum 3]} s).1 in
  Service.properties reset = {["age" := Service.VNum 3]} ∧
  Service.validators reset = Service.validators s ∧
  Service.setValue h "age" (Service.VNum 5) reset
    = (reset, Thrown (Service.validationFailed "age")).
Proof.
  apply (Service_resetProps_keeps_validators
           (Service.mkHooks false false false)
           (Service.registerValidator "age" isAdult (Service.new ∅)).1
           {["age" := Service.VNum 3]} "age" isAdult (Service.VNum 5)).
  - by vm_compute.
  - reflexivity.
Defined.


(** X15.  A validator is never unregistered.  Whatever operations follow,
    a key that has a validator keeps having one. *)
Theorem Service_validators_stay (h : Service.Hooks) (ops : list Service.Op)
    (s : Service.State) (key : string) :
  is_Some (Service.validators s !! key) →
  is_Some (Service.validators (Service.run h ops s) !! key).
Proof.
  revert s. induction ops as [|op rest IH]; intros s Hs; simpl; [done|].
  apply IH. destruct op as [k v|k v|k|d|k f]; simpl; try done.
  - unfold Service.setValue, bind, gets.
    destruct (Service.validators s !! k) as [validate|]; simpl;
      [by destruct (validate v)|done].
  - destruct (decide (k = key)) as [->|Hne].
    + by rewrite lookup_insert_eq.
    + by rewrite lookup_insert_ne.
Qed.

Lemma Service_validators_stay_witness :
  is_Some
    (Service.validators
       (Service.run (Service.mkHooks false false false)
          [Service.ResetProps ∅; Service.RemoveProp "age";
           Service.SetNewProp "age" (Service.VNum 3)]
          (Service.registerValidator "age" isAdult (Service.new ∅)).1)
     !! "age").
Proof.
  apply (Service_validators_stay (Service.mkHooks false false false)
           [Service.ResetProps ∅; Service.RemoveProp "age";
            Service.SetNewProp "age" (Service.VNum 3)]
           (Service.registerValidator "age" isAdult (Service.new ∅)).1
           "age").
  vm_compute. by eexists.
Defined.

(** ** Route registration, the other paths *)

Lemma promiseAll_any_state {S S' : Type}
    (entries : list Controller.HandlerEntry) (s : S) (s' : S') :
  (Controller.promiseAll entries s).2 = (Controller.promiseAll entries s').2.
Proof.
  induction entries as [|[h|h|error] rest IH]; simpl; try done;
    unfold bind; destruct (Controller.promiseAll rest s) as [s1 [hs| |]],
      (Controller.promiseAll rest s') as [s1' [hs'| |]]; simpl in *;
    congruence.
Qed.

Lemma promiseAll_resolved {S : Type}
    (entries : list Controller.HandlerEntry) (s : S) :
  Forall (λ entry, ∀ error, entry ≠ Controller.Rejected error) entries →
  Controller.promiseAll entries s = (s, Returned (resolved entries)).
Proof.
  induction 1 as [|[h|h|error] rest Hx _ IH]; simpl; try done;
    try (unfold bind; by rewrite IH).
  by destruct (Hx error).
Qed.

Lemma appended_empty (s : Controller.RouterState) : appended s emptyRouter = s.
Proof. destruct s. unfold appended. simpl. by rewrite !app_nil_r. Qed.

Lemma appended_assoc (s t u : Controller.RouterState) :
  appended (appended s t) u = appended s (appended t u).
Proof. unfold appended. simpl. by rewrite !app_assoc. Qed.

(** A turn of the loop reads nothing of the router: on any state it adds
    what it adds to an empty one, and ends the same way. *)
Lemma registerRoute_frame (rt : Controller.Runtime)
    (route : Controller.Route) (s : Controller.RouterState) :
  Controller.registerRoute rt route s
  = (appended s (Controller.registerRoute rt route emptyRouter).1,
     (Controller.registerRoute rt route emptyRouter).2).
Proof.
  destruct s as [st co].
  unfold Controller.registerRoute, bind, Controller.liftOutcome, appended.
  destruct (Controller.shouldRegister route) as [[[|]|e|code]|]; simpl;
    rewrite ?app_nil_r; try done.
  all: destruct (Controller.outOfScope rt (Controller.envScope route));
    simpl; rewrite ?app_nil_r; try done.
  all: destruct (Controller.isRequestMethod rt (Controller.method route));
    simpl; rewrite ?app_nil_r; try done.
  all: pose proof (promiseAll_state
         (default [] (Controller.handlers route))
         (Controller.mkRouterState st co)) as Hst;
    pose proof (promiseAll_state
         (default [] (Controller.handlers route)) emptyRouter) as Hst';
    pose proof (promiseAll_any_state
         (default [] (Controller.handlers route))
         (Controller.mkRouterState st co) emptyRouter) as Hsame;
    destruct (Controller.promiseAll _ (Controller.mkRouterState st co))
      as [s1 o1];
    destruct (Controller.promiseAll _ emptyRouter) as [s2 o2];
    simpl in *; subst s1 s2 o2; destruct o1 as [hs|e|code]; simpl;
    rewrite ?app_nil_r; done.
Qed.

Lemma registerRoutes_frame (rt : Controller.Runtime)
    (rs : list Controller.Route) :
  ∀ s,
    Controller.registerRoutes rt rs s
    = (appended s (Controller.registerRoutes rt rs emptyRouter).1,
       (Controller.registerRoutes rt rs emptyRouter).2).
Proof.
  induction rs as [|route rest IH]; intros s; simpl.
  - by rewrite appended_empty.
  - unfold bind. rewrite (registerRoute_frame rt route s).
    destruct (Controller.registerRoute rt route emptyRouter)
      as [t1 [[]|e|code]]; simpl; try done.
    rewrite (IH (appended s t1)), (IH t1). simpl.
    by rewrite appended_assoc.
Qed.

Lemma register_frame (rt : Controller.Runtime) (c : Controller.t)
    (s : Controller.RouterState) :
  Controller.register rt c s
  = (appended s (Controller.register rt c emptyRouter).1,
     (Controller.register rt c emptyRouter).2).
Proof.
  unfold Controller.register, bind, Controller.liftOutcome.
  destruct (Controller.onRegister c) as [[[]|e|code]|]; simpl;
    rewrite ?appended_empty; try done; apply registerRoutes_frame.
Qed.

Lemma registeredBy_frame (rt : Controller.Runtime) (c : Controller.t)
    (s : Controller.RouterState) :
  Controller.registeredBy rt c s
  = Controller.stack (Controller.register rt c emptyRouter).1.
Proof.
  unfold Controller.registeredBy. rewrite (register_frame rt c s). simpl.
  by rewrite drop_app_length.
Qed.

(** X16.  [register] is not idempotent.  A second call on the same
    controller binds the same layers once more, after the first ones, and
    ends as the first call did. *)
Theorem Controller_register_twice (rt : Controller.Runtime)
    (c : Controller.t) (s : Controller.RouterState) :
  let once := Controller.register rt c s in
  let twice := Controller.register rt c once.1 in
  Controller.stack twice.1
    = Controller.stack s ++ Controller.registeredBy rt c s
      ++ Controller.registeredBy rt c s ∧
  twice.2 = once.2.
Proof.
  intros once twice. subst once twice.
  rewrite (register_frame rt c (Controller.register rt c s).1).
  rewrite (register_frame rt c s), registeredBy_frame. simpl.
  by rewrite app_assoc.
Qed.

(** X17.  A route out of scope is passed over in silence.  When its
    [envScope] is not the value of [NODE_ENV] and [shouldRegister] is
    absent or returns [true], the turn binds nothing, logs nothing and
    returns, also when the method is no HTTP method or a handler promise
    is rejected. *)
Theorem Controller_out_of_scope_ignored (rt : Controller.Runtime)
    (route : Controller.Route) (scope : Controller.Environment)
    (s : Controller.RouterState) :
  Controller.envScope route = Some scope →
  Controller.NODE_ENV rt ≠ Some (Controller.environmentName scope) →
  Controller.shouldRegister route = None ∨
  Controller.shouldRegister route = Some (Returned true) →
  Controller.registerRoute rt route s = (s, Returned tt).
Proof.
  intros Hscope Henv Hsr.
  unfold Controller.registerRoute, bind, Controller.liftOutcome.
  assert (Hout : Controller.outOfScope rt (Controller.envScope route) = true).
  { rewrite Hscope. simpl. by rewrite bool_decide_eq_false_2. }
  destruct Hsr as [-> | ->]; simpl; by rewrite Hout.
Qed.

Lemma Controller_out_of_scope_ignored_witness :
  Controller.registerRoute (runningIn (Some "development"))
    productionOnlyRoute emptyRouter
  = (emptyRouter, Returned tt).
Proof.
  apply (Controller_out_of_scope_ignored (runningIn (Some "development"))
           productionOnlyRoute Controller.production emptyRouter).
  - reflexivity.
  - by vm_compute.
  - by left.
Defined.

(** X18.  [shouldRegister] is asked first.  When it returns [false] the
    turn logs the skip, binds nothing and returns, whatever the scope, the
    method and the handlers of the route are. *)
Theorem Controller_shouldRegister_false (rt : Controller.Runtime)
    (route : Controller.Route) (s : Controller.RouterState) :
  Controller.shouldRegister route = Some (Returned false) →
  Controller.registerRoute rt route s
  = (Controller.mkRouterState (Controller.stack s)
       (Controller.console s
        ++ ["[Controller]: Skipping route: "
            +:+ Controller.toUpperCase (Controller.method route)
            +:+ " " +:+ Controller.path route]),
     Returned tt).
Proof.
  intros Hsr.
  unfold Controller.registerRoute, bind, Controller.liftOutcome.
  by rewrite Hsr.
Qed.

Lemma Controller_shouldRegister_false_witness :
  Controller.registerRoute (runningIn (Some "production")) declinedRoute
    emptyRouter
  = (Controller.mkRouterState []
       ["[Controller]: Skipping route: FETCH /items"],
     Returned tt).
Proof.
  exact (Controller_shouldRegister_false (runningIn (Some "production"))
           declinedRoute emptyRouter eq_refl).
Defined.

Lemma isRequestMethod_outside (rt : Controller.Runtime) (method : string) :
  method ∉ ["get"; "post"; "put"; "patch"; "delete"; "options"] →
  Controller.isRequestMethod rt method = false.
Proof.
  intros Hout. unfold Controller.isRequestMethod.
  by rewrite bool_decide_eq_false_2.
Qed.

Lemma registerRoutes_app (rt : Controller.Runtime)
    (pre post : list Controller.Route) :
  ∀ s,
    Controller.registerRoutes rt (pre ++ post) s
    = (Controller.registerRoutes rt pre;;
       Controller.registerRoutes rt post)%js s.
Proof.
  induction pre as [|route rest IH]; intros s; simpl; [done|].
  unfold bind. unfold bind in IH.
  destruct (Controller.registerRoute rt route s) as [s1 [[]|e|code]];
    try done; by rewrite IH.
Qed.

(** X19.  An unknown method aborts [register] where it stands.  A route
    that is in scope and not declined, with a method outside the six
    verbs (or one express's [Router] lacks), makes its turn throw the
    configuration error and bind nothing; the routes before it stay
    bound and the routes after it are not looked at. *)
Theorem Controller_unknown_method_aborts (rt : Controller.Runtime)
    (pre post : list Controller.Route) (route : Controller.Route)
    (s s1 : Controller.RouterState) :
  Controller.registerRoutes rt pre s = (s1, Returned tt) →
  Controller.shouldRegister route = None ∨
  Controller.shouldRegister route = Some (Returned true) →
  Controller.outOfScope rt (Controller.envScope route) = false →
  Controller.isRequestMethod rt (Controller.method route) = false →
  Controller.register rt
    (Controller.mkController (pre ++ route :: post) None) s
  = (s1, Thrown ("[Controller]: Method: " +:+ Controller.method route
                 +:+ " is not recognized as an HTTP method")).
Proof.
  intros Hpre Hsr Hscope Hmethod.
  unfold Controller.register. simpl. unfold bind at 1. simpl.
  rewrite registerRoutes_app. unfold bind at 1. rewrite Hpre. simpl.
  unfold bind at 1.
  assert (Hturn : Controller.registerRoute rt route s1
            = (s1, Thrown ("[Controller]: Method: "
                           +:+ Controller.method route
                           +:+ " is not recognized as an HTTP method"))).
  { unfold Controller.registerRoute, bind, Controller.liftOutcome.
    destruct Hsr as [-> | ->]; simpl; by rewrite Hscope, Hmethod. }
  by rewrite Hturn.
Qed.

Lemma Controller_unknown_method_aborts_witness :
  Controller.register (runningIn (Some "production"))
    (Controller.mkController ([boomRoute] ++ headRoute :: [boomRoute]) None)
    emptyRouter
  = ((Controller.registerRoutes (runningIn (Some "production")) [boomRoute]
        emptyRouter).1,
     Thrown ("[Controller]: Method: " +:+ Controller.method headRoute
             +:+ " is not recognized as an HTTP method")).
Proof.
  apply (Controller_unknown_method_aborts (runningIn (Some "production"))
           [boomRoute] [boomRoute] headRoute emptyRouter).
  - reflexivity.
  - by left.
  - reflexivity.
  - reflexivity.
Defined.

Lemma registerRoute_bindable (rt : Controller.Runtime)
    (route : Controller.Route) (s : Controller.RouterState) :
  bindable rt route →
  Controller.registerRoute rt route s
  = (Controller.mkRouterState (Controller.stack s ++ [layerOf route])
       (Controller.console s
        ++ ["[Controller]: Registering route: "
            +:+ Controller.toUpperCase (Controller.method route)
            +:+ " " +:+ Controller.path route +:+ " (Env: "
            +:+ Controller.envScopeName (Controller.envScope route)
            +:+ ")"]),
     Returned tt).
Proof.
  intros (Hsr & Hscope & Hmethod & Hhandlers).
  unfold Controller.registerRoute, bind, Controller.liftOutcome, layerOf.
  destruct Hsr as [-> | ->]; simpl; rewrite Hscope, Hmethod; simpl;
    rewrite (promiseAll_resolved _ s Hhandlers); simpl;
    by destruct (Controller.validationFn route).
Qed.

Lemma registerRoutes_bindable (rt : Controller.Runtime)
    (rs : list Controller.Route) :
  Forall (bindable rt) rs →
  ∀ s,
    (Controller.registerRoutes rt rs s).2 = Returned tt ∧
    Controller.stack (Controller.registerRoutes rt rs s).1
      = Controller.stack s ++ map layerOf rs.
Proof.
  induction 1 as [|route rest Hroute _ IH]; intros s; simpl.
  - by rewrite app_nil_r.
  - unfold bind. rewrite (registerRoute_bindable rt route s Hroute).
    destruct (IH (Controller.mkRouterState
                    (Controller.stack s ++ [layerOf route])
                    (Controller.console s
                     ++ ["[Controller]: Registering route: "
                         +:+ Controller.toUpperCase (Controller.method route)
                         +:+ " " +:+ Controller.path route +:+ " (Env: "
                         +:+ Controller.envScopeName
                               (Controller.envScope route)
                         +:+ ")"]))) as [Hend Hstack].
    split; [done|]. rewrite Hstack. simpl. by rewrite <- app_assoc.
Qed.

(** X20.  Registration follows declaration.  When every route of a
    controller is bindable and there is no [onRegister] hook, [register]
    returns having bound one layer per route, in the order of [routes];
    in each layer the validation middleware, if the route has a
    [validationFn], comes first, then the handlers in their order, then
    the wrapped endpoint. *)
Theorem Controller_registration_order (rt : Controller.Runtime)
    (rs : list Controller.Route) (s : Controller.RouterState) :
  Forall (bindable rt) rs →
  (Controller.register rt (Controller.mkController rs None) s).2
    = Returned tt ∧
  Controller.stack (Controller.register rt (Controller.mkController rs None)
                      s).1
    = Controller.stack s ++ map layerOf rs.
Proof.
  intros Hall. unfold Controller.register. simpl. unfold bind at 1. simpl.
  by apply registerRoutes_bindable.
Qed.

Lemma Controller_registration_order_witness :
  (Controller.register (runningIn (Some "production"))
     (Controller.mkController [checkedRoute; boomRoute] None) emptyRouter).2
    = Returned tt ∧
  Controller.stack
    (Controller.register (runningIn (Some "production"))
       (Controller.mkController [checkedRoute; boomRoute] None)
       emptyRouter).1
    = Controller.stack emptyRouter ++ map layerOf [checkedRoute; boomRoute].
Proof.
  apply (Controller_registration_order (runningIn (Some "production"))
           [checkedRoute; boomRoute] emptyRouter).
  repeat constructor; by vm_compute.
Defined.

(** X21.  The validation middleware never throws.  It calls [next()]
    when [validationFn] returns and [next(error)] when it throws or
    rejects, once in either case, and returns. *)
Theorem Controller_validationMiddleware
    (validate : Controller.Request → JS (list Controller.ReqEvent) unit)
    (req : Controller.Request) (events : list Controller.ReqEvent) :
  Controller.validationMiddleware validate req events
  = match validate req events with
    | (events1, Returned _) =>
        (events1 ++ [Controller.Next None], Returned tt)
    | (events1, Thrown error) =>
        (events1 ++ [Controller.Next (Some error)], Returned tt)
    | (events1, Exited code) => (events1, Exited code)
    end.
Proof.
  unfold Controller.validationMiddleware, tryCatch, bind.
  by destruct (validate req events) as [events1 [[]|error|code]].
Qed.

(** ** The serving controller and the start-up phases, the other paths *)

(** X22.  Never both serving routes.  Whatever [NODE_ENV] is, [register]
    on the core controller binds at most one layer, and none when
    [NODE_ENV] is neither ["production"] nor ["development"]. *)
Theorem CoreController_at_most_one_route (rt : Controller.Runtime)
    (d : CoreController.Deps) (s : Controller.RouterState) :
  length (Controller.registeredBy rt (CoreController.controller d) s) ≤ 1 ∧
  (Controller.NODE_ENV rt ≠ Some "production" →
   Controller.NODE_ENV rt ≠ Some "development" →
   Controller.register rt (CoreController.controller d) s
     = (s, Returned tt)).
Proof.
  split.
  - rewrite registeredBy_frame.
    destruct d as [static send vm transform].
    unfold Controller.register, CoreController.controller,
      CoreController.routesInternal. simpl.
    unfold bind, Controller.registerRoute, bind. simpl.
    destruct (decide (Controller.NODE_ENV rt = Some "production"))
      as [Hprod|Hprod].
    + assert (Controller.NODE_ENV rt ≠ Some "development") as Hdev
        by (rewrite Hprod; by intros [=]).
      rewrite (bool_decide_eq_true_2 _ Hprod),
        (bool_decide_eq_false_2 _ Hdev). simpl.
      destruct (Controller.isRequestMethod rt "get"); simpl; lia.
    + rewrite (bool_decide_eq_false_2 _ Hprod). simpl.
      destruct (bool_decide (Controller.NODE_ENV rt = Some "development"));
        simpl; [|lia].
      destruct (Controller.isRequestMethod rt "get"); simpl; [|lia].
      destruct vm as [h|h|error]; simpl; lia.
  - intros Hprod Hdev.
    unfold Controller.register, CoreController.controller,
      CoreController.routesInternal. simpl.
    unfold bind, Controller.registerRoute, bind. simpl.
    by rewrite (bool_decide_eq_false_2 _ Hprod),
      (bool_decide_eq_false_2 _ Hdev).
Qed.

(** X23.  The development endpoint answers or forwards, once.  Wrapped
    as [register] binds it, it responds 200 with the transformed template
    when [transformTemplate] returns, and calls [next(error)] exactly once
    when it throws: the endpoint's own catch has dealt with the error, so
    the wrapper's catch does not run. *)
Theorem CoreController_development_endpoint (d : CoreController.Deps)
    (req : Controller.Request) (events : list Controller.ReqEvent) :
  Controller.wrapEndpoint (CoreController.developmentRoute d) req events
  = match CoreController.transformTemplate d (Controller.originalUrl req) with
    | Returned template =>
        (events ++ [Controller.Respond 200 template], Returned tt)
    | Thrown error =>
        (events ++ [Controller.Next (Some error)], Returned tt)
    | Exited code => (events, Exited code)
    end.
Proof.
  unfold Controller.wrapEndpoint, tryCatch. simpl.
  unfold tryCatch, bind, Controller.liftOutcome.
  by destruct (CoreController.transformTemplate d (Controller.originalUrl req)).
Qed.

(** X24.  The production endpoint sends the entry file and forwards a
    failure of [sendFile], once; the wrapper adds nothing, and the route's
    [errorFn] is not called, since the endpoint does not throw. *)
Theorem CoreController_production_endpoint (d : CoreController.Deps)
    (req : Controller.Request) (events : list Controller.ReqEvent) :
  Controller.wrapEndpoint (CoreController.productionRoute d) req events
  = (events ++ [Controller.SendFile CoreController.productionEntryFile]
     ++ match CoreController.sendFile d req with
        | Some error => [Controller.Next (Some error)]
        | None => []
        end,
     Returned tt).
Proof.
  unfold Controller.wrapEndpoint, tryCatch. simpl. unfold bind. simpl.
  destruct (CoreController.sendFile d req); simpl.
  - by rewrite <- app_assoc.
  - done.
Qed.

(** X25.  A dev server that failed to start leaves development without
    serving route.  In development, with [get] a method of the router and
    the promise of [getMiddleware()] rejected, [registerServing] binds
    nothing, logs the failure and returns, so start-up goes on. *)
Theorem AppRouter_registerServing_without_dev_server
    (rt : Controller.Runtime) (app : AppRouter.t)
    (s : Controller.RouterState) (error : Error) :
  Controller.NODE_ENV rt = Some "development" →
  Controller.inRouter rt "get" = true →
  CoreController.vdsMiddleware (AppRouter.core app)
    = Controller.Rejected error →
  AppRouter.registerServing rt app s
  = (Controller.mkRouterState (Controller.stack s)
       (Controller.console s
        ++ ["[Router]: Failed to register CoreController: " +:+ error]),
     Returned tt).
Proof.
  intros Henv Hget Hvm.
  destruct app as [[static send vm transform] cs views]. simpl in Hvm.
  subst vm.
  unfold AppRouter.registerServing, tryCatch, Controller.register,
    CoreController.controller, CoreController.routesInternal. simpl.
  unfold bind, Controller.registerRoute, bind, Controller.isRequestMethod.
  simpl. rewrite Henv, Hget. by simpl.
Qed.

Lemma AppRouter_registerServing_without_dev_server_witness :
  AppRouter.registerServing (runningIn (Some "development"))
    (AppRouter.mkAppRouter failedDeps [] []) emptyRouter
  = (Controller.mkRouterState []
       ["[Router]: Failed to register CoreController: ECONNREFUSED"],
     Returned tt).
Proof.
  exact (AppRouter_registerServing_without_dev_server
           (runningIn (Some "development"))
           (AppRouter.mkAppRouter failedDeps [] []) emptyRouter
           "ECONNREFUSED" eq_refl eq_refl eq_refl).
Defined.

Lemma registerEach_extends (rt : Controller.Runtime)
    (cs : list Controller.t) :
  ∀ s, ∃ layers lines,
    (AppRouter.registerEach rt cs s).1
    = Controller.mkRouterState (Controller.stack s ++ layers)
        (Controller.console s ++ lines).
Proof.
  induction cs as [|c rest IH]; intros s; simpl.
  - exists [], []. destruct s. by rewrite !app_nil_r.
  - destruct (register_extends rt c s) as (l1 & c1 & H1 & _).
    unfold bind at 1.
    destruct (Controller.register rt c s) as [s1 [[]|e|code]]; simpl in *;
      try by exists l1, c1.
    unfold bind at 1. simpl.
    edestruct IH as (l2 & c2 & H2). rewrite H2, H1. simpl.
    exists (l1 ++ l2), (c1 ++ ["[Router]: Registered API controller"] ++ c2).
    by rewrite <- !app_assoc.
Qed.

(** The controller phase returns or exits, having only added to the
    router. *)
Lemma registerControllers_ok (rt : Controller.Runtime) (app : AppRouter.t)
    (s : Controller.RouterState) :
  ∃ layers lines ended,
    AppRouter.registerControllers rt app s
    = (Controller.mkRouterState (Controller.stack s ++ layers)
         (Controller.console s ++ lines), ended) ∧
    (ended = Returned tt ∨ ∃ code, ended = Exited code).
Proof.
  destruct (registerEach_extends rt (AppRouter.controllers app) s)
    as (l1 & c1 & H1).
  unfold AppRouter.registerControllers, tryCatch.
  destruct (AppRouter.registerEach rt (AppRouter.controllers app) s)
    as [s1 [[]|e|code]]; simpl in *; subst s1.
  - exists l1, c1, (Returned tt). split; [done | by left].
  - exists l1, (c1 ++ ["[Router]: Failed to register controllers: " +:+ e]),
      (Returned tt).
    unfold AppRouter.logError, Controller.log, modify. simpl.
    rewrite <- app_assoc. split; [done | by left].
  - exists l1, c1, (Exited code). split; [done | right; by exists code].
Qed.

(** X27.  Views are bound in order, and not in development.
    [registerViews] returns; when [NODE_ENV] is ["development"] it binds
    nothing, otherwise it binds one GET layer per entry of the view map,
    in the order of the entries, each with the view's handler alone. *)
Theorem AppRouter_registerViews (rt : Controller.Runtime)
    (app : AppRouter.t) (s : Controller.RouterState) :
  (AppRouter.registerViews rt app s).2 = Returned tt ∧
  Controller.stack (AppRouter.registerViews rt app s).1
    = Controller.stack s
      ++ (if bool_decide (Controller.NODE_ENV rt = Some "development")
          then []
          else map (λ view, Controller.RouteLayer "get" view.1
                              [AppRouter.viewHandler view.2])
                 (AppRouter.viewMap app)).
Proof.
  destruct (registerViews_ok rt app s) as (lines & ->). by split.
Qed.

(** ** Shutdown, repeated signals *)

Lemma emitEvent_SIGTERM_again (p : AppRouter.Process) :
  AppRouter.shuttingDown p = true →
  (AppRouter.emitEvent AppRouter.SIGTERM p).1 = p.
Proof.
  intros H. unfold AppRouter.emitEvent. simpl.
  unfold AppRouter.routerListener, AppRouter.shutdownHandler_enter, bind,
    gets. by rewrite H.
Qed.

(** X29.  The listener is closed once.  However many times ["SIGTERM"]
    arrives, [server.close] is called on the first arrival only; the
    later ones find the flag set and change nothing. *)
Theorem AppRouter_listener_closed_once (n : nat) (p : AppRouter.Process) :
  AppRouter.shuttingDown p = false →
  let after :=
    Nat.iter (S n) (λ q, (AppRouter.emitEvent AppRouter.SIGTERM q).1) p in
  AppRouter.happened after
    = AppRouter.happened p ++ [AppRouter.ListenerCloseCalled] ∧
  AppRouter.shuttingDown after = true ∧
  AppRouter.vds after = AppRouter.vds p.
Proof.
  intros Hflag after. subst after. rewrite Nat.iter_succ_r.
  set (first := (AppRouter.emitEvent AppRouter.SIGTERM p).1).
  assert (Hfirst : first
    = AppRouter.mkProcess true (AppRouter.vds p)
        (AppRouter.happened p ++ [AppRouter.ListenerCloseCalled])).
  { subst first. destruct p as [flag w evs]. simpl in Hflag. by subst flag. }
  assert (Hrest : ∀ k,
    Nat.iter k (λ q, (AppRouter.emitEvent AppRouter.SIGTERM q).1) first
    = first).
  { induction k as [|k IH]; simpl; [done|]. rewrite IH.
    apply emitEvent_SIGTERM_again. by rewrite Hfirst. }
  rewrite Hrest, Hfirst. by repeat split.
Qed.

Lemma AppRouter_listener_closed_once_witness :
  let after :=
    Nat.iter 3 (λ q, (AppRouter.emitEvent AppRouter.SIGTERM q).1) serving in
  AppRouter.happened after
    = AppRouter.happened serving ++ [AppRouter.ListenerCloseCalled] ∧
  AppRouter.shuttingDown after = true ∧
  AppRouter.vds after = AppRouter.vds serving.
Proof.
  apply (AppRouter_listener_closed_once 2 serving).
  reflexivity.
Defined.

(** X28 at the served process of the examples. *)
Lemma SIGINT_closes_dev_server_first_witness :
  let first := (AppRouter.vdsListener serving).1 in
  let ended := (AppRouter.emitEvent AppRouter.SIGINT serving).1 in
  VDS.closeCalls (AppRouter.vds first)
    = VDS.closeCalls (AppRouter.vds serving) ++ [7] ∧
  AppRouter.happened first = AppRouter.happened serving
    ++ [AppRouter.ShutdownVDSCalled] ∧
  AppRouter.happened ended = AppRouter.happened serving
    ++ [AppRouter.ShutdownVDSCalled; AppRouter.ListenerCloseCalled] ∧
  VDS.closeCalls (AppRouter.vds ended)
    = VDS.closeCalls (AppRouter.vds serving) ++ [7].
Proof.
  apply (SIGINT_closes_dev_server_first serving 7); reflexivity.
Defined.

(** ** Start-up as a whole *)

Lemma registerEachView_exact (views : list (string * AppRouter.Component)) :
  ∀ s,
    AppRouter.registerEachView views s
    = (Controller.mkRouterState
         (Controller.stack s
          ++ map (λ view, Controller.RouteLayer "get" view.1
                            [AppRouter.viewHandler view.2]) views)
         (Controller.console s
          ++ map (λ view, "[Router]: Registering view for path: " +:+ view.1)
               views),
       Returned tt).
Proof.
  induction views as [|[path component] rest IH]; intros [st co]; simpl.
  - by rewrite !app_nil_r.
  - unfold bind at 1 2. simpl. rewrite IH. simpl.
    by rewrite <- !app_assoc.
Qed.

Lemma registerViews_exact (rt : Controller.Runtime) (app : AppRouter.t)
    (s : Controller.RouterState) :
  AppRouter.registerViews rt app s
  = (Controller.mkRouterState
       (Controller.stack s ++ viewLayers rt (AppRouter.viewMap app))
       (Controller.console s ++ viewLines rt (AppRouter.viewMap app)),
     Returned tt).
Proof.
  unfold AppRouter.registerViews, viewLayers, viewLines.
  destruct (bool_decide (Controller.NODE_ENV rt = Some "development")).
  - destruct s as [st co]. simpl. by rewrite app_nil_r.
  - apply registerEachView_exact.
Qed.

(** [registerServing] adds to the router what [register] of the core
    controller adds, and the failure line if [register] threw; it
    returns. *)
Lemma registerServing_exact (rt : Controller.Runtime) (app : AppRouter.t)
    (s : Controller.RouterState) :
  let core :=
    Controller.register rt (CoreController.controller (AppRouter.core app))
      emptyRouter in
  AppRouter.registerServing rt app s
  = (Controller.mkRouterState
       (Controller.stack s ++ Controller.stack core.1)
       (Controller.console s ++ Controller.console core.1
        ++ servingFailure core.2),
     Returned tt).
Proof.
  intros core.
  assert (Hne : ∀ code, core.2 ≠ Exited code).
  { intros code. apply register_not_exited; [done|]. by repeat constructor. }
  unfold AppRouter.registerServing, tryCatch.
  rewrite (register_frame rt _ s). fold core.
  destruct core as [t [[]|e|code]]; simpl in *.
  - unfold appended. by rewrite app_nil_r.
  - unfold AppRouter.logError, Controller.log, modify, appended. simpl.
    by rewrite <- app_assoc.
  - by destruct (Hne code).
Qed.

Lemma laterPhases_exact (rt : Controller.Runtime) (app : AppRouter.t)
    (s : Controller.RouterState) :
  let core :=
    Controller.register rt (CoreController.controller (AppRouter.core app))
      emptyRouter in
  laterPhases rt app s
  = (Controller.mkRouterState
       (Controller.stack s ++ Controller.stack core.1
        ++ viewLayers rt (AppRouter.viewMap app)
        ++ [Controller.UseLayer AppRouter.notFound])
       (Controller.console s
        ++ ["[AppRouter]: Controllers registered."]
        ++ Controller.console core.1 ++ servingFailure core.2
        ++ ["[AppRouter]: CoreController registered."]
        ++ viewLines rt (AppRouter.viewMap app)
        ++ ["[AppRouter]: Views registered.";
            "[AppRouter]: Fallback registered."]),
     Returned tt).
Proof.
  intros core. destruct s as [st co]. unfold laterPhases.
  unfold bind at 1. simpl.
  unfold bind at 1. rewrite registerServing_exact. fold core. simpl.
  unfold bind at 1. simpl.
  unfold bind at 1. rewrite registerViews_exact. simpl.
  cbv [bind Controller.log AppRouter.registerFallback Controller.addLayer
       modify Controller.stack Controller.console].
  by rewrite <- !app_assoc.
Qed.




(** In the example the serving phase binds the production route: the
    static middleware and the wrapped endpoint, after the layers of the
    two controllers. *)
Example failing_controller_stack :
  Controller.stack
    (AppRouter.initialize (runningIn (Some "production"))
       (AppRouter.mkAppRouter exampleDeps
          [goodController; badController; goodController] [])
       emptyRouter).1
  = [layerOf boomRoute; layerOf boomRoute;
     layerOf (CoreController.productionRoute exampleDeps);
     Controller.UseLayer AppRouter.notFound].
Proof. reflexivity. Qed.

(** A turn of the loop ends the process only through the route's
    [shouldRegister]. *)
Lemma registerRoute_exited (rt : Controller.Runtime)
    (route : Controller.Route) (s : Controller.RouterState) (code : nat) :
  (Controller.registerRoute rt route s).2 = Exited code →
  Controller.shouldRegister route = Some (Exited code).
Proof.
  unfold Controller.registerRoute, bind, Controller.liftOutcome.
  destruct (Controller.shouldRegister route) as [[[|]|e|c]|]; simpl;
    try done; try (by intros [= ->]).
  all: destruct (Controller.outOfScope rt (Controller.envScope route));
    [done|].
  all: destruct (Controller.isRequestMethod rt (Controller.method route));
    simpl; [|done].
  all: pose proof (promiseAll_not_exited
                     (default [] (Controller.handlers route)) s) as Hne;
    destruct (Controller.promiseAll _ s) as [s1 [hs|e|c]]; simpl in *;
    try done; by destruct (Hne c).
Qed.

Lemma registerRoutes_exited (rt : Controller.Runtime)
    (rs : list Controller.Route) (code : nat) :
  ∀ s,
    (Controller.registerRoutes rt rs s).2 = Exited code →
    ∃ route, route ∈ rs ∧
      Controller.shouldRegister route = Some (Exited code).
Proof.
  induction rs as [|route rest IH]; intros s; simpl; [done|].
  pose proof (registerRoute_exited rt route s code) as Hex.
  unfold bind.
  destruct (Controller.registerRoute rt route s) as [s1 [[]|e|c]];
    simpl in *; try done.
  - intros (r & Hr & Hsr)%IH. exists r. split; [by right | done].
  - intros Heq. exists route. split; [by left | by apply Hex].
Qed.

Lemma register_exited (rt : Controller.Runtime) (c : Controller.t)
    (s : Controller.RouterState) (code : nat) :
  (Controller.register rt c s).2 = Exited code →
  Controller.onRegister c = Some (Exited code) ∨
  ∃ route, route ∈ Controller.routes c ∧
    Controller.shouldRegister route = Some (Exited code).
Proof.
  unfold Controller.register, bind, Controller.liftOutcome.
  destruct (Controller.onRegister c) as [[[]|e|k]|]; simpl; try done.
  - intros H. right. by apply (registerRoutes_exited rt _ code s).
  - intros [= ->]. by left.
  - intros H. right. by apply (registerRoutes_exited rt _ code s).
Qed.

Lemma registerEach_exited (rt : Controller.Runtime)
    (cs : list Controller.t) (code : nat) :
  ∀ s,
    (AppRouter.registerEach rt cs s).2 = Exited code → hookExits cs code.
Proof.
  induction cs as [|c rest IH]; intros s; simpl; [done|].
  pose proof (register_exited rt c s code) as Hex.
  unfold bind at 1.
  destruct (Controller.register rt c s) as [s1 [[]|e|k]]; simpl in *;
    try done.
  - unfold bind at 1. simpl. intros (c' & Hc & Hhook)%IH.
    exists c'. split; [by right | done].
  - intros Heq. exists c. split; [by left | by apply Hex].
Qed.

(** X26.  [initialize] never throws and binds the 404 fallback last.  No
    handler promise of a controller or of the core controller being
    rejected, whatever else the controllers, the core controller and the
    views do, [initialize] either returns, with everything the router held
    before still in place, the fallback as the last layer and the closing
    line as the last line of the console, or the process has exited with
    the code with which the [onRegister] of a controller, or the
    [shouldRegister] of one of its routes, ended it. *)
Theorem AppRouter_initialize_fallback_last (rt : Controller.Runtime)
    (app : AppRouter.t) (s : Controller.RouterState) :
  Forall promisesKept (AppRouter.controllers app) →
  promisesKept (CoreController.controller (AppRouter.core app)) →
  match (AppRouter.initialize rt app s).2 with
  | Returned _ =>
      ∃ layers lines,
        Controller.stack (AppRouter.initialize rt app s).1
          = Controller.stack s ++ layers
            ++ [Controller.UseLayer AppRouter.notFound] ∧
        Controller.console (AppRouter.initialize rt app s).1
          = Controller.console s ++ lines
            ++ ["[AppRouter]: Fallback registered."]
  | Thrown _ => False
  | Exited code => hookExits (AppRouter.controllers app) code
  end.
Proof.
  intros _ _.
  assert (Hinit : AppRouter.initialize rt app s
    = (Controller.log "[AppRouter]: Initializing controllers and views...";;
       AppRouter.registerControllers rt app;;
       laterPhases rt app)%js s) by reflexivity.
  rewrite Hinit. clear Hinit. unfold bind, Controller.log, modify. simpl.
  set (s0 := Controller.mkRouterState (Controller.stack s)
               (Controller.console s
                ++ ["[AppRouter]: Initializing controllers and views..."])).
  assert (Hex : ∀ code,
    (AppRouter.registerControllers rt app s0).2 = Exited code →
    hookExits (AppRouter.controllers app) code).
  { intros code. unfold AppRouter.registerControllers, tryCatch.
    pose proof (registerEach_exited rt (AppRouter.controllers app) code s0)
      as Hexit.
    destruct (AppRouter.registerEach rt (AppRouter.controllers app) s0)
      as [s1 [[]|e|k]]; simpl in *; try done. }
  destruct (registerControllers_ok rt app s0)
    as (l1 & c1 & ended & Heq & Hend).
  rewrite Heq in Hex |- *.
  destruct Hend as [-> | [code ->]]; simpl; [|by apply Hex].
  rewrite laterPhases_exact. simpl.
  set (core := Controller.register rt
                 (CoreController.controller (AppRouter.core app))
                 emptyRouter).
  exists (l1 ++ Controller.stack core.1
          ++ viewLayers rt (AppRouter.viewMap app)),
    (["[AppRouter]: Initializing controllers and views..."]
     ++ c1 ++ ["[AppRouter]: Controllers registered."]
     ++ Controller.console core.1 ++ servingFailure core.2
     ++ ["[AppRouter]: CoreController registered."]
     ++ viewLines rt (AppRouter.viewMap app)
     ++ ["[AppRouter]: Views registered."]).
  split; rewrite <- !app_assoc; simpl; by rewrite <- ?app_assoc.
Qed.

(** X26 in production for a controller that fails between two that
    register. *)
Lemma AppRouter_initialize_fallback_last_witness :
  let ended :=
    AppRouter.initialize (runningIn (Some "production"))
      (AppRouter.mkAppRouter exampleDeps
         [goodController; badController; goodController] [])
      emptyRouter in
  ∃ layers lines,
    Controller.stack ended.1
      = Controller.stack emptyRouter ++ layers
        ++ [Controller.UseLayer AppRouter.notFound] ∧
    Controller.console ended.1
      = Controller.console emptyRouter ++ lines
        ++ ["[AppRouter]: Fallback registered."].
Proof.
  apply (AppRouter_initialize_fallback_last (runningIn (Some "production"))
           (AppRouter.mkAppRouter exampleDeps
              [goodController; badController; goodController] [])
           emptyRouter).
  - repeat first [done | constructor].
  - repeat first [done | constructor].
Defined.
